(** * CLARAI: the browser-side authentication context

    A shallow embedding of [context/AuthContext.tsx]: the account store kept
    in [window.localStorage], the session pointer, the password-reset tokens
    and the six operations the [AuthProvider] hands to the presentation layer.

    Conventions of the embedding.
    - A JavaScript string is the [string] of its UTF-8 bytes; [s1 + s2] is
      [s1 ++ s2], the empty string is the only falsy one.
    - [window.localStorage] is a finite map from keys to strings without a
      quota; [window] itself may be undefined, as the storage helpers test.
    - What the browser provides ([String.prototype.toLowerCase],
      [crypto.subtle], [TextEncoder], [btoa], [JSON], [Date]) is an
      interface, [Platform], with the laws of those built-ins that the
      module relies on.
    - The clock ([Date.now()]) and the random source ([Math.random()]) are
      read once per operation; the value read is an argument of the
      operation.
    - An [async] function is a state transformer that ends either resolved
      with a value or rejected with what was thrown; [await] is sequencing. *)

From Stdlib Require Import ZArith Lia String Ascii List Bool.
From stdpp Require Import gmap strings list.

Import ListNotations.
Local Open Scope string_scope.
#[local] Arguments String.append s1 s2 : simpl nomatch.
Local Open Scope Z_scope.

(** ** Data model *)

Module StoredAccount.
Record t : Type := mk { email : string; passwordHash : string; createdAt : string }.
End StoredAccount.

Module PasswordResetToken.
Record t : Type := mk { email : string; otpHash : string; expiresAt : string }.
End PasswordResetToken.

Module AuthUser.
Record t : Type := mk { email : string; createdAt : string }.
End AuthUser.

Definition ACCOUNTS_KEY : string := "clarai.auth.accounts".
Definition SESSION_KEY : string := "clarai.auth.session".
Definition RESET_KEY : string := "clarai.auth.resetTokens".

(** What a [throw] carries: an [Error] object with its message, or a value
    that is not an instance of [Error]. *)
Inductive Exn : Type :=
| Error (message : string)
| NotAnError.

(** How a promise settles. *)
Inductive Completion (T : Type) : Type :=
| Resolved (value : T)
| Rejected (reason : Exn).
Arguments Resolved {T} value.
Arguments Rejected {T} reason.

(** ** The browser interface *)

(** [JSON.parse(raw) as T[]]: the parsed value seen through the cast of the
    source, which trusts the elements of an array to have the shape [T]; an
    array with other elements is outside the embedding. *)
Inductive JsonParsed (T : Type) : Type :=
| NotAnArray
| AnArray (items : list T).
Arguments NotAnArray {T}.
Arguments AnArray {T} items.

(** [JSON_parse raw = None] when [JSON.parse] throws a [SyntaxError], as it
    does on the empty text. *)
Class Json (T : Type) : Type := {
  JSON_stringify : list T -> string;
  JSON_parse : string -> option (JsonParsed T);
  JSON_parse_stringify : forall l, JSON_parse (JSON_stringify l) = Some (AnArray l);
  JSON_parse_empty : JSON_parse "" = None;
}.

Definition isAscii (c : ascii) : bool := (N_of_ascii c <? 128)%N.

Class Platform : Type := {
  (** [String.prototype.toLowerCase] *)
  toLowerCase : string -> string;
  toLowerCase_idem : forall s, toLowerCase (toLowerCase s) = toLowerCase s;
  toLowerCase_empty : toLowerCase "" = "";
  (** [crypto.subtle.digest("SHA-256", _)], absent outside secure contexts *)
  crypto_subtle_digest : option (list Byte.byte -> list Byte.byte);
  (** [new TextEncoder().encode], absent where [TextEncoder] is undefined *)
  textEncoder_encode : option (string -> list Byte.byte);
  (** [btoa], which throws on a code unit above 0xFF *)
  btoa : string -> Completion string;
  btoa_ascii : forall s, forallb isAscii (list_ascii_of_string s) = true ->
                         exists b, btoa s = Resolved b;
  (** [new Date(ms).toISOString()] *)
  toISOString : Z -> string;
  (** [new Date(text).getTime()], [None] for [NaN] *)
  Date_getTime : string -> option Z;
  accounts_json :: Json StoredAccount.t;
  tokens_json :: Json PasswordResetToken.t;
}.

(** ** Application state *)

(** [window] is [None] where [typeof window === "undefined"]; otherwise it
    holds [window.localStorage]. [user], [loading] and [error] are the three
    [useState] cells of [AuthProvider]. *)
Record AuthState : Type := {
  window : option (gmap string string);
  user : option AuthUser.t;
  loading : bool;
  error : option string;
}.

Definition setUser (u : option AuthUser.t) (st : AuthState) : AuthState :=
  {| window := window st; user := u; loading := loading st; error := error st |}.

Definition setLoading (b : bool) (st : AuthState) : AuthState :=
  {| window := window st; user := user st; loading := b; error := error st |}.

Definition setError (e : option string) (st : AuthState) : AuthState :=
  {| window := window st; user := user st; loading := loading st; error := e |}.

Definition setWindow (w : option (gmap string string)) (st : AuthState) : AuthState :=
  {| window := w; user := user st; loading := loading st; error := error st |}.

(** [isAuthenticated: Boolean(user)] *)
Definition isAuthenticated (st : AuthState) : bool :=
  match user st with Some _ => true | None => false end.

(** ** Asynchronous actions *)

Definition Async (T : Type) : Type := AuthState -> Completion T * AuthState.

Definition ret {T} (v : T) : Async T := fun st => (Resolved v, st).

Definition throw {T} (e : Exn) : Async T := fun st => (Rejected e, st).

Definition bind {T U} (m : Async T) (k : T -> Async U) : Async U :=
  fun st =>
    match m st with
    | (Resolved v, st') => k v st'
    | (Rejected e, st') => (Rejected e, st')
    end.

(** [try { return await m } catch (err) { handler err }] *)
Definition try_catch {T} (m : Async T) (handler : Exn -> Async T) : Async T :=
  fun st =>
    match m st with
    | (Resolved v, st') => (Resolved v, st')
    | (Rejected e, st') => handler e st'
    end.

Definition gets {T} (f : AuthState -> T) : Async T := fun st => (Resolved (f st), st).

Definition modify (f : AuthState -> AuthState) : Async unit := fun st => (Resolved tt, f st).

(** A promise that is already settled, awaited. *)
Definition await {T} (c : Completion T) : Async T := fun st => (c, st).

Declare Scope async_scope.
Delimit Scope async_scope with async.
Notation "x <- m ;; k" := (bind m (fun x => k))
  (at level 100, m at next level, right associativity) : async_scope.
Notation "m ;; k" := (bind m (fun _ => k))
  (at level 100, right associativity) : async_scope.
Local Open Scope async_scope.

(** ** Digest *)

Definition hexDigit (n : N) : ascii :=
  match String.get (N.to_nat n) "0123456789abcdef" with
  | Some c => c
  | None => "0"%char
  end.

(** [b.toString(16)] for an element [b] of a [Uint8Array]. *)
Definition toString16 (b : N) : string :=
  if (b <? 16)%N then String (hexDigit b) ""
  else String (hexDigit (b / 16)) (String (hexDigit (b mod 16)) "").

(** [s.padStart(n, c)] for a one-character filler. *)
Definition padStart (n : nat) (c : ascii) (s : string) : string :=
  string_of_list_ascii (List.repeat c (n - String.length s)) ++ s.

Section WithPlatform.
Context `{platform : Platform}.

(** SHA-256 rendered in hex where [crypto.subtle] and [TextEncoder] exist,
    [btoa] otherwise. *)
Definition hashString (value : string) : Completion string :=
  match crypto_subtle_digest, textEncoder_encode with
  | Some digest, Some encode =>
      let data := encode value in
      let hash := digest data in
      Resolved (String.concat ""
                  (List.map (fun b => padStart 2 "0"%char (toString16 (Byte.to_N b))) hash))
  | _, _ => btoa value
  end.

End WithPlatform.

(** ** One-time code *)

(** A value of [Math.random()]: a double in [0, 1), that is
    [significand / 2 ^ scale] with at most 53 significant bits. *)
Record Random : Type := { significand : Z; scale : Z }.

Definition Random_valid (r : Random) : Prop :=
  0 <= significand r < 2 ^ 53 /\ significand r < 2 ^ scale r /\ 0 <= scale r <= 1074.

(** Rounding of a non-negative multiple [n] of a fixed power of two to the
    nearest number with 53 significant bits, ties to even: what one
    floating-point operation does to its exact result. The unit is kept, so
    the result is again a multiple of it. *)
Definition roundDouble (n : Z) : Z :=
  let s := Z.log2 n - 52 in
  if s <=? 0 then n
  else
    let q := n / 2 ^ s in
    let r := n mod 2 ^ s in
    let half := 2 ^ (s - 1) in
    (if (half <? r) || ((r =? half) && Z.odd q) then q + 1 else q) * 2 ^ s.

(** [Math.floor(100000 + Math.random() * 900000)], in units of
    [2 ^ - scale] until the floor is taken. *)
Definition otpNumber (random : Random) : Z :=
  let unit := 2 ^ scale random in
  let product := roundDouble (significand random * 900000) in
  let sum := roundDouble (100000 * unit + product) in
  sum / unit.

Definition digitChar (d : Z) : ascii := ascii_of_N (48 + Z.to_N d).

Fixpoint decimalDigits (fuel : nat) (n : Z) (acc : string) : string :=
  match fuel with
  | O => acc
  | S fuel' =>
      let acc' := String (digitChar (n mod 10)) acc in
      if n <? 10 then acc' else decimalDigits fuel' (n / 10) acc'
  end.

(** [n.toString()] for an integral [n] below 1e21. *)
Definition Number_toString (n : Z) : string :=
  if n <? 0 then "-" ++ decimalDigits (S (Z.to_nat (Z.log2 (- n)))) (- n) ""
  else decimalDigits (S (Z.to_nat (Z.log2 n))) n "".

Definition generateOtp (random : Random) : string :=
  Number_toString (otpNumber random).

(** ** Storage helpers *)

Section WithPlatform.
Context `{platform : Platform}.

Definition getAccounts (st : AuthState) : list StoredAccount.t :=
  match window st with
  | None => []
  | Some localStorage =>
      match localStorage !! ACCOUNTS_KEY with
      | None => []
      | Some raw =>
          if (raw =? "")%string then []
          else match JSON_parse raw with
               | Some (AnArray parsed) => parsed
               | Some NotAnArray => []
               | None => []
               end
      end
  end.

Definition persistAccounts (accounts : list StoredAccount.t) (st : AuthState) : AuthState :=
  match window st with
  | None => st
  | Some localStorage =>
      setWindow (Some (<[ACCOUNTS_KEY := JSON_stringify accounts]> localStorage)) st
  end.

Definition persistSession (email : option string) (st : AuthState) : AuthState :=
  match window st with
  | None => st
  | Some localStorage =>
      match email with
      | None => setWindow (Some (delete SESSION_KEY localStorage)) st
      | Some e =>
          if (e =? "")%string then setWindow (Some (delete SESSION_KEY localStorage)) st
          else setWindow (Some (<[SESSION_KEY := e]> localStorage)) st
      end
  end.

Definition getSession (st : AuthState) : option string :=
  match window st with
  | None => None
  | Some localStorage => localStorage !! SESSION_KEY
  end.

Definition getResetTokens (st : AuthState) : list PasswordResetToken.t :=
  match window st with
  | None => []
  | Some localStorage =>
      match localStorage !! RESET_KEY with
      | None => []
      | Some raw =>
          if (raw =? "")%string then []
          else match JSON_parse raw with
               | Some (AnArray parsed) => parsed
               | Some NotAnArray => []
               | None => []
               end
      end
  end.

Definition persistResetTokens (tokens : list PasswordResetToken.t) (st : AuthState) : AuthState :=
  match window st with
  | None => st
  | Some localStorage =>
      setWindow (Some (<[RESET_KEY := JSON_stringify tokens]> localStorage)) st
  end.

End WithPlatform.

(** ** The failures of the operations

    Named after the kinds of failure the design distinguishes; each is the
    [Error] the source throws at that point, with its message. *)

Definition AccountNotFound_signIn : Exn := Error "Account not found. Please sign up first.".
Definition InvalidCredential : Exn := Error "Incorrect password. Please try again.".
Definition DuplicateAccount : Exn :=
  Error "An account with this email already exists. Try signing in.".
Definition AccountNotFound_request : Exn := Error "We couldn't find an account with that email.".
Definition ResetNotFound : Exn :=
  Error "No reset request found for this email. Please request a new code.".
Definition ResetExpired : Exn := Error "The OTP has expired. Please request a new code.".
Definition InvalidCode : Exn := Error "Invalid OTP. Double-check the code and try again.".
Definition AccountNotFound_verify : Exn := Error "Account not found.".

(** Reading a property of [undefined]; no operation reaches it. *)
Definition TypeError : Exn := Error "Cannot read properties of undefined".

(** [array.findIndex(p)], [None] for [-1]. *)
Fixpoint findIndex {A} (p : A -> bool) (l : list A) : option nat :=
  match l with
  | [] => None
  | x :: l' => if p x then Some O else option_map S (findIndex p l')
  end.

(** ** The operations of [AuthProvider] *)

Section WithPlatform.
Context `{platform : Platform}.

Definition projection (account : StoredAccount.t) : AuthUser.t :=
  {| AuthUser.email := StoredAccount.email account;
     AuthUser.createdAt := StoredAccount.createdAt account |}.

Definition loadAccountForEmail (email : option string) (st : AuthState)
  : option StoredAccount.t :=
  match email with
  | None => None
  | Some e =>
      if (e =? "")%string then None
      else
        let accounts := getAccounts st in
        List.find (fun item => (StoredAccount.email item =? toLowerCase e)%string) accounts
  end.

Definition initialiseSession : Async unit :=
  email <- gets getSession ;;
  account <- gets (loadAccountForEmail email) ;;
  match account with
  | Some account => modify (setUser (Some (projection account)))
  | None => modify (persistSession None) ;; modify (setUser None)
  end ;;
  modify (setLoading false).

(** What [runAuthAction] records of a caught value: [err.message] for an
    instance of [Error], a fixed text otherwise. *)
Definition errorMessage (err : Exn) : string :=
  match err with
  | Error message => message
  | NotAnError => "Authentication failed. Please try again."
  end.

Definition runAuthAction {T} (action : Async T) : Async T :=
  modify (setError None) ;;
  try_catch action
    (fun err =>
       modify (setError (Some (errorMessage err))) ;;
       throw err).

Definition clearError : AuthState -> AuthState := setError None.

Definition signIn (email password : string) : Async unit :=
  runAuthAction (
    accounts <- gets getAccounts ;;
    let normalizedEmail := toLowerCase email in
    match List.find (fun account => (StoredAccount.email account =? normalizedEmail)%string)
                    accounts with
    | None => throw AccountNotFound_signIn
    | Some existing =>
        hash <- await (hashString password) ;;
        if negb (StoredAccount.passwordHash existing =? hash)%string
        then throw InvalidCredential
        else
          modify (setUser (Some (projection existing))) ;;
          modify (persistSession (Some (StoredAccount.email existing)))
    end).

Definition signUp (now : Z) (email password : string) : Async unit :=
  runAuthAction (
    let normalizedEmail := toLowerCase email in
    accounts <- gets getAccounts ;;
    if List.existsb (fun account => (StoredAccount.email account =? normalizedEmail)%string)
                    accounts
    then throw DuplicateAccount
    else
      passwordHash <- await (hashString password) ;;
      let newAccount :=
        {| StoredAccount.email := normalizedEmail;
           StoredAccount.passwordHash := passwordHash;
           StoredAccount.createdAt := toISOString now |} in
      modify (persistAccounts (accounts ++ [newAccount])%list) ;;
      modify (setUser (Some (projection newAccount))) ;;
      modify (persistSession (Some (StoredAccount.email newAccount)))).

Definition signOut : Async unit :=
  runAuthAction (
    modify (persistSession None) ;;
    modify (setUser None)).

Definition requestPasswordReset (random : Random) (now : Z) (email : string)
  : Async string :=
  runAuthAction (
    let normalizedEmail := toLowerCase email in
    accounts <- gets getAccounts ;;
    match List.find (fun account => (StoredAccount.email account =? normalizedEmail)%string)
                    accounts with
    | None => throw AccountNotFound_request
    | Some existing =>
        let otp := generateOtp random in
        otpHash <- await (hashString otp) ;;
        let expiresAt := toISOString (now + 10 * 60 * 1000) in
        tokens0 <- gets getResetTokens ;;
        let tokens :=
          List.filter
            (fun token => negb (PasswordResetToken.email token =? normalizedEmail)%string)
            tokens0 in
        let tokens :=
          (tokens ++ [ {| PasswordResetToken.email := normalizedEmail;
                          PasswordResetToken.otpHash := otpHash;
                          PasswordResetToken.expiresAt := expiresAt |} ])%list in
        modify (persistResetTokens tokens) ;;
        ret otp
    end).

(** [new Date(token.expiresAt).getTime() < Date.now()]; a comparison with
    [NaN] is false. *)
Definition isExpired (now : Z) (token : PasswordResetToken.t) : bool :=
  match Date_getTime (PasswordResetToken.expiresAt token) with
  | Some t => t <? now
  | None => false
  end.

Definition verifyPasswordReset (now : Z) (email otp newPassword : string) : Async unit :=
  runAuthAction (
    let normalizedEmail := toLowerCase email in
    tokens <- gets getResetTokens ;;
    let withoutEmail :=
      List.filter
        (fun item => negb (PasswordResetToken.email item =? normalizedEmail)%string)
        tokens in
    match List.find (fun item => (PasswordResetToken.email item =? normalizedEmail)%string)
                    tokens with
    | None => throw ResetNotFound
    | Some token =>
        if isExpired now token
        then modify (persistResetTokens withoutEmail) ;; throw ResetExpired
        else
          providedHash <- await (hashString otp) ;;
          if negb (providedHash =? PasswordResetToken.otpHash token)%string
          then throw InvalidCode
          else
            accounts <- gets getAccounts ;;
            match findIndex
                    (fun account => (StoredAccount.email account =? normalizedEmail)%string)
                    accounts with
            | None => throw AccountNotFound_verify
            | Some existingIndex =>
                newHash <- await (hashString newPassword) ;;
                let updatedAccounts :=
                  alter (fun account =>
                           {| StoredAccount.email := StoredAccount.email account;
                              StoredAccount.passwordHash := newHash;
                              StoredAccount.createdAt := StoredAccount.createdAt account |})
                        existingIndex accounts in
                modify (persistAccounts updatedAccounts) ;;
                modify (persistResetTokens withoutEmail) ;;
                match updatedAccounts !! existingIndex with
                | None => throw TypeError
                | Some updated =>
                    modify (setUser (Some (projection updated))) ;;
                    modify (persistSession (Some (StoredAccount.email updated)))
                end
            end
    end).

Definition refreshSession : Async bool :=
  runAuthAction (
    email <- gets getSession ;;
    account <- gets (loadAccountForEmail email) ;;
    match account with
    | Some account =>
        modify (setUser (Some (projection account))) ;;
        ret true
    | None =>
        modify (persistSession None) ;;
        modify (setUser None) ;;
        ret false
    end).

End WithPlatform.

(** ** Vocabulary of the statements *)

(** The predicates the operations pass to [find], [some], [findIndex] and,
    negated, to [filter]. *)
Definition hasEmail (normalizedEmail : string) (account : StoredAccount.t) : bool :=
  (StoredAccount.email account =? normalizedEmail)%string.

Definition forEmail (normalizedEmail : string) (token : PasswordResetToken.t) : bool :=
  (PasswordResetToken.email token =? normalizedEmail)%string.

Definition otherEmail (normalizedEmail : string) (token : PasswordResetToken.t) : bool :=
  negb (forEmail normalizedEmail token).

(** [{ ...account, passwordHash }] *)
Definition withPasswordHash (passwordHash : string) (account : StoredAccount.t)
  : StoredAccount.t :=
  {| StoredAccount.email := StoredAccount.email account;
     StoredAccount.passwordHash := passwordHash;
     StoredAccount.createdAt := StoredAccount.createdAt account |}.

(** The state an operation leaves when it is rejected with [err] before
    writing anything. *)
Definition failed (err : Exn) (st : AuthState) : AuthState :=
  setError (Some (errorMessage err)) (setError None st).

(** What the presentation layer can do to the context, and what it gets
    back. *)
Inductive Operation : Type :=
| InitialiseSession
| ClearError
| SignIn (email password : string)
| SignUp (now : Z) (email password : string)
| SignOut
| RequestPasswordReset (random : Random) (now : Z) (email : string)
| VerifyPasswordReset (now : Z) (email otp newPassword : string)
| RefreshSession.

Inductive Value : Type :=
| Undefined
| Boolean (b : bool)
| Text (s : string).

Definition returning {T} (f : T -> Value) (m : Async T) : Async Value :=
  fun st =>
    match m st with
    | (Resolved v, st') => (Resolved (f v), st')
    | (Rejected e, st') => (Rejected e, st')
    end.

Section WithPlatform.
Context `{platform : Platform}.

Definition perform (op : Operation) : Async Value :=
  match op with
  | InitialiseSession => returning (fun _ => Undefined) initialiseSession
  | ClearError => returning (fun _ => Undefined) (modify clearError)
  | SignIn email password => returning (fun _ => Undefined) (signIn email password)
  | SignUp now email password => returning (fun _ => Undefined) (signUp now email password)
  | SignOut => returning (fun _ => Undefined) signOut
  | RequestPasswordReset random now email =>
      returning Text (requestPasswordReset random now email)
  | VerifyPasswordReset now email otp newPassword =>
      returning (fun _ => Undefined) (verifyPasswordReset now email otp newPassword)
  | RefreshSession => returning Boolean refreshSession
  end.

(** The state after a sequence of operations, whatever each one returned. *)
Definition runOperations (ops : list Operation) (st : AuthState) : AuthState :=
  fold_left (fun st op => snd (perform op st)) ops st.

(** An account whose email is in lower case already. *)
Definition normalized (a : StoredAccount.t) : Prop :=
  toLowerCase (StoredAccount.email a) = StoredAccount.email a.

(** The stored accounts have pairwise different emails, each in lower case. *)
Definition uniqueAccounts (st : AuthState) : Prop :=
  NoDup (StoredAccount.email <$> getAccounts st) /\ Forall normalized (getAccounts st).


(** How an operation may change the stored accounts: not at all, by adding
    one with a fresh email in normal form, or by replacing one digest. *)
Inductive accountsStep (l : list StoredAccount.t) : list StoredAccount.t -> Prop :=
| accounts_same : accountsStep l l
| accounts_added a :
    List.find (hasEmail (StoredAccount.email a)) l = None ->
    normalized a ->
    accountsStep l (l ++ [a])
| accounts_updated i h : accountsStep l (alter (withPasswordHash h) i l).


(** The state a successful verification leaves. *)
Definition verified (normalizedEmail newHash : string) (existingIndex : nat)
    (account : StoredAccount.t) (st : AuthState) : AuthState :=
  persistSession (Some (StoredAccount.email account))
    (setUser (Some (projection account))
       (persistResetTokens
          (List.filter (otherEmail normalizedEmail) (getResetTokens st))
          (persistAccounts
             (alter (withPasswordHash newHash) existingIndex (getAccounts st))
             (setError None st)))).

(** Both digests exist and differ. *)
Definition distinctDigests (a b : string) : Prop :=
  exists ha hb, hashString a = Resolved ha /\ hashString b = Resolved hb /\ ha <> hb.

End WithPlatform.

(** The text [localStorage] holds under a key, if any. *)
Definition rawValue (key : string) (st : AuthState) : option string :=
  match window st with
  | Some localStorage => localStorage !! key
  | None => None
  end.

(** A stored text that is missing, is not valid JSON, or is JSON for
    something other than an array. *)
Definition malformed (T : Type) `{Json T} (raw : option string) : Prop :=
  match raw with
  | None => True
  | Some text => JSON_parse (T := T) text = None \/ JSON_parse (T := T) text = Some NotAnArray
  end.

(** The same state with nothing stored under [key]. *)
Definition without (key : string) (st : AuthState) : AuthState :=
  match window st with
  | Some localStorage => setWindow (Some (delete key localStorage)) st
  | None => st
  end.

(** A decimal digit. *)
Definition isDigit (c : ascii) : bool :=
  ((48 <=? N_of_ascii c) && (N_of_ascii c <=? 57))%N.

(** ** A concrete browser

    An instance of [Platform] that computes: case folding of the ASCII
    letters, no [crypto.subtle] (a page served outside a secure context, so
    that [hashString] takes its [btoa] branch), [btoa], ISO 8601 timestamps
    and a JSON codec for arrays of flat records of strings. *)

Module Sample.

(** *** [toLowerCase] on ASCII *)

Definition lowerChar (c : ascii) : ascii :=
  let n := N_of_ascii c in
  if ((65 <=? n) && (n <=? 90))%N then ascii_of_N (n + 32) else c.

Fixpoint lower (s : string) : string :=
  match s with
  | EmptyString => EmptyString
  | String c s' => String (lowerChar c) (lower s')
  end.

(** *** [btoa] *)

Definition base64Char (n : N) : ascii :=
  match String.get (N.to_nat n)
          "ABCDEFGHIJKLMNOPQRSTUVWXYZabcdefghijklmnopqrstuvwxyz0123456789+/" with
  | Some c => c
  | None => "="%char
  end.

Fixpoint base64 (bytes : list N) : string :=
  match bytes with
  | [] => ""
  | [a] =>
      String (base64Char (a / 4))
        (String (base64Char ((a mod 4) * 16)) "==")
  | [a; b] =>
      String (base64Char (a / 4))
        (String (base64Char ((a mod 4) * 16 + b / 16))
           (String (base64Char ((b mod 16) * 4)) "="))
  | a :: b :: c :: rest =>
      String (base64Char (a / 4))
        (String (base64Char ((a mod 4) * 16 + b / 16))
           (String (base64Char ((b mod 16) * 4 + c / 64))
              (String (base64Char (c mod 64)) (base64 rest))))
  end%N.

(** The code units of a text all of whose characters are below U+0100, from
    its UTF-8 bytes; [None] when a character is beyond, or the bytes are not
    UTF-8. *)
Fixpoint latin1 (bytes : list N) : option (list N) :=
  match bytes with
  | [] => Some []
  | b :: rest =>
      if (b <? 128)%N then option_map (cons b) (latin1 rest)
      else if ((b =? 194) || (b =? 195))%N then
        match rest with
        | c :: rest' =>
            if ((128 <=? c) && (c <? 192))%N
            then option_map (cons ((b - 194) * 64 + c)%N) (latin1 rest')
            else None
        | [] => None
        end
      else None
  end.

Definition InvalidCharacterError : Exn :=
  Error "Failed to execute 'btoa' on 'Window': The string to be encoded contains characters outside of the Latin1 range.".

Definition btoa (s : string) : Completion string :=
  match latin1 (List.map N_of_ascii (list_ascii_of_string s)) with
  | Some units => Resolved (base64 units)
  | None => Rejected InvalidCharacterError
  end.

(** *** Timestamps *)

Definition pad (width : nat) (n : Z) : string := padStart width "0"%char (Number_toString n).

(** The date of a day number counted from 1970-01-01. *)
Definition civilFromDays (z : Z) : Z * Z * Z :=
  let z := z + 719468 in
  let era := z / 146097 in
  let doe := z - era * 146097 in
  let yoe := (doe - doe / 1460 + doe / 36524 - doe / 146096) / 365 in
  let doy := doe - (365 * yoe + yoe / 4 - yoe / 100) in
  let mp := (5 * doy + 2) / 153 in
  let d := doy - (153 * mp + 2) / 5 + 1 in
  let m := if mp <? 10 then mp + 3 else mp - 9 in
  let y := yoe + era * 400 in
  (if m <=? 2 then y + 1 else y, m, d).

Definition daysFromCivil (y m d : Z) : Z :=
  let y := if m <=? 2 then y - 1 else y in
  let era := y / 400 in
  let yoe := y - era * 400 in
  let doy := (153 * (if 2 <? m then m - 3 else m + 9) + 2) / 5 + d - 1 in
  let doe := yoe * 365 + yoe / 4 - yoe / 100 + doy in
  era * 146097 + doe - 719468.

Definition toISOString (ms : Z) : string :=
  let '(y, m, d) := civilFromDays (ms / 86400000) in
  let t := ms mod 86400000 in
  let year :=
    if (0 <=? y) && (y <=? 9999) then pad 4 y
    else if y <? 0 then "-" ++ pad 6 (- y) else "+" ++ pad 6 y in
  year ++ "-" ++ pad 2 m ++ "-" ++ pad 2 d ++ "T" ++ pad 2 (t / 3600000) ++ ":"
       ++ pad 2 (t / 60000 mod 60) ++ ":" ++ pad 2 (t / 1000 mod 60) ++ "."
       ++ pad 3 (t mod 1000) ++ "Z".

Fixpoint digitsValue (s : string) (acc : Z) : option Z :=
  match s with
  | EmptyString => Some acc
  | String c s' =>
      let n := Z.of_N (N_of_ascii c) in
      if (48 <=? n) && (n <=? 57) then digitsValue s' (10 * acc + (n - 48)) else None
  end.

(** Only the form [YYYY-MM-DDTHH:mm:ss.sssZ] is read; anything else is an
    invalid date. *)
Definition Date_getTime (text : string) : option Z :=
  let field (from len : nat) := digitsValue (String.substring from len text) 0 in
  let literal (at_ : nat) (c : string) := (String.substring at_ 1 text =? c)%string in
  if negb ((String.length text =? 24)%nat && literal 4%nat "-" && literal 7%nat "-"
           && literal 10%nat "T" && literal 13%nat ":" && literal 16%nat ":"
           && literal 19%nat "." && literal 23%nat "Z")
  then None
  else
    match field 0%nat 4%nat, field 5%nat 2%nat, field 8%nat 2%nat, field 11%nat 2%nat,
          field 14%nat 2%nat, field 17%nat 2%nat, field 20%nat 3%nat with
    | Some y, Some m, Some d, Some h, Some mi, Some s, Some ms =>
        if (1 <=? m) && (m <=? 12) && (1 <=? d) && (d <=? 31) && (h <=? 24)
           && (mi <=? 59) && (s <=? 59)
        then Some (daysFromCivil y m d * 86400000 + h * 3600000 + mi * 60000 + s * 1000 + ms)
        else None
    | _, _, _, _, _, _, _ => None
    end.

(** *** JSON for arrays of records with three string members *)

Definition quoteChar : ascii := ascii_of_nat 34.
Definition backslash : ascii := ascii_of_nat 92.

Fixpoint escape (s : string) : string :=
  match s with
  | EmptyString => EmptyString
  | String c s' =>
      if (c =? quoteChar)%char || (c =? backslash)%char
      then String backslash (String c (escape s'))
      else String c (escape s')
  end.

Definition quote (s : string) : string :=
  String quoteChar (escape s ++ String quoteChar "").

(** Reads a string literal from just after its opening quote. *)
Fixpoint readString (s : string) : option (string * string) :=
  match s with
  | EmptyString => None
  | String c s' =>
      if (c =? quoteChar)%char then Some (EmptyString, s')
      else if (c =? backslash)%char then
        match s' with
        | String d s'' =>
            if (d =? quoteChar)%char || (d =? backslash)%char
            then match readString s'' with
                 | Some (v, rest) => Some (String d v, rest)
                 | None => None
                 end
            else None
        | EmptyString => None
        end
      else match readString s' with
           | Some (v, rest) => Some (String c v, rest)
           | None => None
           end
  end.

Fixpoint stripPrefix (p s : string) : option string :=
  match p, s with
  | EmptyString, _ => Some s
  | String a p', String b s' => if (a =? b)%char then stripPrefix p' s' else None
  | String _ _, EmptyString => None
  end.

Section Codec.
Variable T : Type.
Variables k1 k2 k3 : string.
Variable make : string -> string -> string -> T.
Variables m1 m2 m3 : T -> string.
Hypothesis make_members : forall x, make (m1 x) (m2 x) (m3 x) = x.

Definition opening (first : bool) (k : string) : string :=
  (if first then "{" else ",") ++ String quoteChar k ++ String quoteChar ":"
    ++ String quoteChar "".

Definition printObject (x : T) : string :=
  opening true k1 ++ escape (m1 x) ++ String quoteChar
    (opening false k2 ++ escape (m2 x) ++ String quoteChar
       (opening false k3 ++ escape (m3 x) ++ String quoteChar "}")).

Fixpoint printItems (l : list T) : string :=
  match l with
  | [] => "]"
  | [x] => printObject x ++ "]"
  | x :: l' => printObject x ++ "," ++ printItems l'
  end.

Definition stringify (l : list T) : string := "[" ++ printItems l.

Definition readMember (first : bool) (k : string) (s : string) : option (string * string) :=
  match stripPrefix (opening first k) s with
  | Some s' => readString s'
  | None => None
  end.

Definition parseObject (s : string) : option (T * string) :=
  match readMember true k1 s with
  | Some (v1, s1) =>
      match readMember false k2 s1 with
      | Some (v2, s2) =>
          match readMember false k3 s2 with
          | Some (v3, String "}" s3) => Some (make v1 v2 v3, s3)
          | _ => None
          end
      | None => None
      end
  | None => None
  end.

Fixpoint parseItems (fuel : nat) (s : string) : option (list T) :=
  match fuel with
  | O => None
  | S fuel' =>
      match parseObject s with
      | Some (x, String "]" EmptyString) => Some [x]
      | Some (x, String "," rest) =>
          match parseItems fuel' rest with
          | Some l => Some (x :: l)
          | None => None
          end
      | _ => None
      end
  end.

(** An array of such records, or one of a few values that are valid JSON
    without being arrays; everything else is a syntax error. *)
Definition parse (s : string) : option (JsonParsed T) :=
  if (s =? "[]")%string then Some (AnArray [])
  else if (s =? "null")%string || (s =? "true")%string || (s =? "false")%string
          || (s =? "{}")%string || (s =? "0")%string
  then Some NotAnArray
  else match s with
       | String "[" s' =>
           match parseItems (String.length s') s' with
           | Some l => Some (AnArray l)
           | None => None
           end
       | _ => None
       end.

End Codec.

End Sample.

(** * Properties *)

(** ** The concrete browser satisfies the interface *)

Module SampleLaws.
Import Sample.

Lemma lowerChar_idem (c : ascii) : lowerChar (lowerChar c) = lowerChar c.
Proof.
  unfold lowerChar.
  destruct ((65 <=? N_of_ascii c) && (N_of_ascii c <=? 90))%N eqn:Hc; [| now rewrite Hc].
  apply andb_true_iff in Hc as [Hlo Hhi].
  apply N.leb_le in Hlo, Hhi.
  rewrite N_ascii_embedding by lia.
  replace ((65 <=? N_of_ascii c + 32) && (N_of_ascii c + 32 <=? 90))%N with false; [reflexivity |].
  symmetry. apply andb_false_iff. right. apply N.leb_gt. lia.
Qed.

Lemma lower_idem (s : string) : lower (lower s) = lower s.
Proof.
  induction s as [| c s IH]; simpl; [reflexivity |].
  now rewrite lowerChar_idem, IH.
Qed.

Lemma btoa_ascii (s : string) :
  forallb isAscii (list_ascii_of_string s) = true -> exists b, btoa s = Resolved b.
Proof.
  intros Hs. unfold btoa.
  assert (Hl : latin1 (List.map N_of_ascii (list_ascii_of_string s))
               = Some (List.map N_of_ascii (list_ascii_of_string s))).
  { induction (list_ascii_of_string s) as [| c l IH]; [reflexivity |].
    simpl in Hs. apply andb_true_iff in Hs as [Hc Hl].
    simpl. unfold isAscii in Hc. rewrite Hc, (IH Hl). reflexivity. }
  rewrite Hl. eauto.
Qed.

Lemma stripPrefix_app (p r : string) : stripPrefix p (p ++ r) = Some r.
Proof.
  induction p as [| a p IH]; simpl; [now destruct r |].
  now rewrite Ascii.eqb_refl.
Qed.

Lemma readString_escape (v rest : string) :
  readString (escape v ++ String quoteChar rest) = Some (v, rest).
Proof.
  induction v as [| c v IH]; simpl.
  - reflexivity.
  - destruct (c =? quoteChar)%char eqn:Hq; simpl.
    + rewrite Hq. simpl. now rewrite IH.
    + destruct (c =? backslash)%char eqn:Hb; simpl.
      * rewrite Hq, Hb. simpl. now rewrite IH.
      * rewrite Hq, Hb. now rewrite IH.
Qed.

Lemma string_app_assoc (a b c : string) : ((a ++ b) ++ c = a ++ (b ++ c))%string.
Proof. induction a as [| x a IH]; simpl; congruence. Qed.

Lemma string_length_app (a b : string) :
  String.length (a ++ b) = (String.length a + String.length b)%nat.
Proof. induction a as [| x a IH]; simpl; congruence. Qed.

#[local] Arguments opening : simpl never.

Section Codec.
Variable T : Type.
Variables k1 k2 k3 : string.
Variable make : string -> string -> string -> T.
Variables m1 m2 m3 : T -> string.
Hypothesis make_members : forall x, make (m1 x) (m2 x) (m3 x) = x.

Abbreviation printObject := (Sample.printObject T k1 k2 k3 m1 m2 m3).
Abbreviation parseObject := (Sample.parseObject T k1 k2 k3 make).
Abbreviation printItems := (Sample.printItems T k1 k2 k3 m1 m2 m3).
Abbreviation parseItems := (Sample.parseItems T k1 k2 k3 make).

Lemma readMember_opening (first : bool) (k v rest : string) :
  readMember first k ((opening first k ++ escape v ++ String quoteChar rest))
  = Some (v, rest).
Proof.
  unfold readMember. rewrite stripPrefix_app. apply readString_escape.
Qed.

Lemma printObject_app (x : T) (rest : string) :
  printObject x ++ rest =
  opening true k1 ++ escape (m1 x) ++ String quoteChar
    (opening false k2 ++ escape (m2 x) ++ String quoteChar
       (opening false k3 ++ escape (m3 x) ++ String quoteChar (String "}" rest))).
Proof.
  unfold Sample.printObject.
  repeat (rewrite ?string_app_assoc; simpl). reflexivity.
Qed.

Lemma parseObject_print (x : T) (rest : string) :
  parseObject (printObject x ++ rest) = Some (x, rest).
Proof.
  rewrite printObject_app.
  unfold Sample.parseObject.
  rewrite !readMember_opening. now rewrite make_members.
Qed.

Lemma parseItems_print (l : list T) (fuel : nat) :
  l <> [] -> (length l <= fuel)%nat -> parseItems fuel (printItems l) = Some l.
Proof.
  revert fuel. induction l as [| x l IH]; intros fuel Hne Hfuel; [congruence |].
  destruct fuel as [| fuel]; [simpl in Hfuel; lia |].
  destruct l as [| y l].
  - cbn [Sample.parseItems Sample.printItems].
    now rewrite parseObject_print.
  - change (printItems (x :: y :: l)) with (printObject x ++ String "," (printItems (y :: l))).
    cbn [Sample.parseItems].
    rewrite parseObject_print.
    rewrite IH; [reflexivity | congruence | simpl in *; lia].
Qed.

Lemma printObject_length (x : T) : (1 <= String.length (printObject x))%nat.
Proof. unfold Sample.printObject, opening. simpl. lia. Qed.

Lemma printItems_length (l : list T) : (length l <= String.length (printItems l))%nat.
Proof.
  induction l as [| x l IH]; [simpl; lia |].
  destruct l as [| y l].
  - cbn [Sample.printItems]. rewrite string_length_app.
    pose proof (printObject_length x). simpl. lia.
  - change (printItems (x :: y :: l)) with (printObject x ++ String "," (printItems (y :: l))).
    rewrite string_length_app.
    pose proof (printObject_length x). simpl in *. lia.
Qed.

Lemma parse_array (body : string) (c : ascii) (s : string) :
  body = String "{" (String c s) ->
  parse T k1 k2 k3 make (String "[" body) =
  match parseItems (String.length body) body with
  | Some l => Some (AnArray l)
  | None => None
  end.
Proof. intros ->. reflexivity. Qed.

Lemma parse_stringify (l : list T) :
  parse T k1 k2 k3 make (stringify T k1 k2 k3 m1 m2 m3 l) = Some (AnArray l).
Proof.
  destruct l as [| x l]; [reflexivity |].
  assert (Hs : exists c s, printItems (x :: l) = String "{" (String c s)).
  { destruct l; simpl; unfold Sample.printObject, opening; simpl; eauto. }
  destruct Hs as (c & s & Hs).
  unfold stringify. change ("[" ++ printItems (x :: l)) with (String "[" (printItems (x :: l))).
  rewrite (parse_array _ c s Hs).
  rewrite parseItems_print; [reflexivity | congruence | apply printItems_length].
Qed.

End Codec.

End SampleLaws.

Module SampleBrowser.

#[export] Instance accountsCodec : Json StoredAccount.t := {|
  JSON_stringify :=
    Sample.stringify StoredAccount.t "email" "passwordHash" "createdAt"
      StoredAccount.email StoredAccount.passwordHash StoredAccount.createdAt;
  JSON_parse :=
    Sample.parse StoredAccount.t "email" "passwordHash" "createdAt" StoredAccount.mk;
  JSON_parse_stringify :=
    SampleLaws.parse_stringify StoredAccount.t "email" "passwordHash" "createdAt"
      StoredAccount.mk StoredAccount.email StoredAccount.passwordHash
      StoredAccount.createdAt (fun x => match x with StoredAccount.mk _ _ _ => eq_refl end);
  JSON_parse_empty := eq_refl;
|}.

#[export] Instance tokensCodec : Json PasswordResetToken.t := {|
  JSON_stringify :=
    Sample.stringify PasswordResetToken.t "email" "otpHash" "expiresAt"
      PasswordResetToken.email PasswordResetToken.otpHash PasswordResetToken.expiresAt;
  JSON_parse :=
    Sample.parse PasswordResetToken.t "email" "otpHash" "expiresAt" PasswordResetToken.mk;
  JSON_parse_stringify :=
    SampleLaws.parse_stringify PasswordResetToken.t "email" "otpHash" "expiresAt"
      PasswordResetToken.mk PasswordResetToken.email PasswordResetToken.otpHash
      PasswordResetToken.expiresAt
      (fun x => match x with PasswordResetToken.mk _ _ _ => eq_refl end);
  JSON_parse_empty := eq_refl;
|}.

#[export] Instance platform : Platform := {|
  toLowerCase := Sample.lower;
  toLowerCase_idem := SampleLaws.lower_idem;
  toLowerCase_empty := eq_refl;
  crypto_subtle_digest := None;
  textEncoder_encode := Some list_byte_of_string;
  btoa := Sample.btoa;
  btoa_ascii := SampleLaws.btoa_ascii;
  toISOString := Sample.toISOString;
  Date_getTime := Sample.Date_getTime;
  accounts_json := accountsCodec;
  tokens_json := tokensCodec;
|}.

(** The state of a freshly loaded page whose [localStorage] is empty. *)
Definition fresh : AuthState :=
  {| window := Some ∅; user := None; loading := true; error := None |}.

(** A value of [Math.random()]: one half, for which the code is 550000. *)
Definition half : Random := {| significand := 1; scale := 1 |}.

(** One account, signed in. *)
Definition registered : AuthState := runOperations [SignUp 0 "A@b.com" "p"] fresh.

(** One account, signed out, with a reset requested at time 0. *)
Definition requested : AuthState :=
  runOperations [SignUp 0 "A@b.com" "p"; SignOut; RequestPasswordReset half 0 "a@B.com"] fresh.

(** The same for the account whose email is the empty string. *)
Definition requestedEmpty : AuthState :=
  runOperations [SignUp 0 "" "pw"; SignOut; RequestPasswordReset half 0 ""] fresh.

(** A session pointer left behind without its account. *)
Definition dangling : AuthState :=
  {| window := Some {[ SESSION_KEY := "ghost@b.com" ]};
     user := None; loading := true; error := None |}.

(** Accounts overwritten by text that is not JSON. *)
Definition garbled : AuthState :=
  {| window := Some {[ ACCOUNTS_KEY := "{oops" ]};
     user := None; loading := false; error := None |}.

End SampleBrowser.

(** ** Further vocabulary *)

(** The operations that go through [runAuthAction]. *)
Definition wrapped (op : Operation) : bool :=
  match op with
  | InitialiseSession | ClearError => false
  | _ => true
  end.

(** The keys the context owns in [localStorage]. *)
Definition authKey (key : string) : bool :=
  (key =? ACCOUNTS_KEY)%string || (key =? SESSION_KEY)%string || (key =? RESET_KEY)%string.

(** A verification is the only operation that replaces a digest. *)
Definition isVerify (op : Operation) : bool :=
  match op with
  | VerifyPasswordReset _ _ _ _ => true
  | _ => false
  end.

Definition isRequest (op : Operation) : bool :=
  match op with
  | RequestPasswordReset _ _ _ => true
  | _ => false
  end.

(** A page reload: the cells of [AuthProvider] start afresh, [localStorage]
    is what it was. *)
Definition reload (st : AuthState) : AuthState :=
  {| window := window st; user := None; loading := true; error := None |}.

Section WithPlatform.
Context `{platform : Platform}.

(** Every stored token is for the email of a stored account. *)
Definition tokensOwned (st : AuthState) : Prop :=
  forall t, t ∈ getResetTokens st ->
    exists a, a ∈ getAccounts st /\ StoredAccount.email a = PasswordResetToken.email t.

(** The user cell and the session pointer agree: the user is the projection
    of the account stored for its email, and the pointer is that email,
    absent when there is no user or the email is empty. *)
Definition sessionMatchesUser (st : AuthState) : Prop :=
  is_Some (window st)
  /\ match user st with
     | None => getSession st = None
     | Some u =>
         (exists a, List.find (hasEmail (AuthUser.email u)) (getAccounts st) = Some a
                    /\ projection a = u)
         /\ getSession st
            = if (AuthUser.email u =? "")%string then None else Some (AuthUser.email u)
     end.

End WithPlatform.

(** ** The hex rendering of a digest *)

(** [b.toString(16).padStart(2, "0")], the function [hashString] maps over
    the bytes of the digest. *)
Definition hexByte (b : Byte.byte) : string :=
  padStart 2 "0"%char (toString16 (Byte.to_N b)).

Definition isLowerHex (c : ascii) : bool :=
  let n := N_of_ascii c in
  (((48 <=? n) && (n <=? 57)) || ((97 <=? n) && (n <=? 102)))%N.

Definition hexValue (c : ascii) : option N :=
  let n := N_of_ascii c in
  if ((48 <=? n) && (n <=? 57))%N then Some (n - 48)%N
  else if ((97 <=? n) && (n <=? 102))%N then Some (n - 87)%N
  else None.

(** Reading the bytes back from a hex text, two characters at a time. *)
Fixpoint unhex (s : string) : option (list Byte.byte) :=
  match s with
  | EmptyString => Some []
  | String c1 (String c2 rest) =>
      match hexValue c1, hexValue c2, unhex rest with
      | Some d1, Some d2, Some bytes =>
          match Byte.of_N (16 * d1 + d2) with
          | Some b => Some (b :: bytes)
          | None => None
          end
      | _, _, _ => None
      end
  | String _ EmptyString => None
  end.

(** ** The key of the chat sessions *)

(** [storageKey] of [ModuleChatReason]: the key under which the chat module
    keeps the sessions of the current user. *)
Definition storageKey (user : option AuthUser.t) : string :=
  match user with
  | Some u => "clarai.chatSessions.v1." ++ AuthUser.email u
  | None => "clarai.chatSessions.v1.guest"
  end.

(** ** The sign-in form

    [components/AuthForm.tsx]: the three submit handlers of the form that
    calls the context. The fields of the form, the mode the application shows
    it in, the context and the alerts raised so far make up a page; a
    handler is an asynchronous action on the page. *)

Inductive AuthMode : Type := signin | signup | forgot | reset.

Module AuthForm.
Record t : Type := mk {
  email : string;
  password : string;
  confirmPassword : string;
  otpInput : string;
  resetEmail : option string;
  generatedOtp : option string;
  loading : bool;
}.
End AuthForm.

Record Page : Type := {
  authMode : AuthMode;
  form : AuthForm.t;
  context : AuthState;
  alerts : list string;
}.

(** [alert(message)] *)
Definition alert (message : string) (page : Page) : Page :=
  {| authMode := authMode page; form := form page; context := context page;
     alerts := alerts page ++ [message] |}.

(** [onModeChange(next)] *)
Definition onModeChange (next : AuthMode) (page : Page) : Page :=
  {| authMode := next; form := form page; context := context page; alerts := alerts page |}.

Definition setForm (f : AuthForm.t) (page : Page) : Page :=
  {| authMode := authMode page; form := f; context := context page; alerts := alerts page |}.

Definition setContext (st : AuthState) (page : Page) : Page :=
  {| authMode := authMode page; form := form page; context := st; alerts := alerts page |}.

Definition setFormLoading (b : bool) (page : Page) : Page :=
  let f := form page in
  setForm {| AuthForm.email := AuthForm.email f; AuthForm.password := AuthForm.password f;
             AuthForm.confirmPassword := AuthForm.confirmPassword f;
             AuthForm.otpInput := AuthForm.otpInput f;
             AuthForm.resetEmail := AuthForm.resetEmail f;
             AuthForm.generatedOtp := AuthForm.generatedOtp f;
             AuthForm.loading := b |} page.

(** [setGeneratedOtp(otp); setResetEmail(resetEmail)] *)
Definition setReset (otp resetEmail : string) (page : Page) : Page :=
  let f := form page in
  setForm {| AuthForm.email := AuthForm.email f; AuthForm.password := AuthForm.password f;
             AuthForm.confirmPassword := AuthForm.confirmPassword f;
             AuthForm.otpInput := AuthForm.otpInput f;
             AuthForm.resetEmail := Some resetEmail;
             AuthForm.generatedOtp := Some otp;
             AuthForm.loading := AuthForm.loading f |} page.

Section WithPlatform.
Context `{platform : Platform}.

Definition handleAuthSubmit (now : Z) (page : Page) : Completion unit * Page :=
  let f := form page in
  if match authMode page with signup => true | _ => false end
     && negb (AuthForm.password f =? AuthForm.confirmPassword f)%string
  then (Resolved tt, alert "Passwords do not match." page)
  else
    let page := setFormLoading true page in
    let '(outcome, st) :=
      match authMode page with
      | signin => signIn (AuthForm.email f) (AuthForm.password f) (context page)
      | signup => signUp now (AuthForm.email f) (AuthForm.password f) (context page)
      | _ => (Resolved tt, context page)
      end in
    (outcome, setFormLoading false (setContext st page)).

Definition handleForgotSubmit (random : Random) (now : Z) (page : Page)
  : Completion unit * Page :=
  let f := form page in
  let page := setFormLoading true page in
  match requestPasswordReset random now (AuthForm.email f) (context page) with
  | (Resolved otp, st) =>
      (Resolved tt,
       setFormLoading false
         (onModeChange reset
            (setReset otp (toLowerCase (AuthForm.email f)) (setContext st page))))
  | (Rejected err, st) => (Rejected err, setFormLoading false (setContext st page))
  end.

Definition handleResetSubmit (now : Z) (page : Page) : Completion unit * Page :=
  let f := form page in
  match AuthForm.resetEmail f with
  | None =>
      (Resolved tt,
       onModeChange forgot (alert "No reset request found. Please request a new code." page))
  | Some resetEmail =>
      if (resetEmail =? "")%string
      then (Resolved tt,
            onModeChange forgot
              (alert "No reset request found. Please request a new code." page))
      else if negb (AuthForm.password f =? AuthForm.confirmPassword f)%string
      then (Resolved tt, alert "Passwords do not match." page)
      else
        let page := setFormLoading true page in
        let '(outcome, st) :=
          verifyPasswordReset now resetEmail (AuthForm.otpInput f) (AuthForm.password f)
            (context page) in
        (outcome, setFormLoading false (setContext st page))
  end.

End WithPlatform.

(** ** Further sample states *)

Module SampleForm.
Import SampleBrowser.

(** The concrete browser inside a secure context: [crypto.subtle] is there.
    A one-byte checksum stands in for SHA-256, whose values no statement
    depends on. *)
Definition checksum (data : list Byte.byte) : list Byte.byte :=
  match Byte.of_N (fold_left (fun sum b => ((sum + Byte.to_N b) mod 256)%N) data 0%N) with
  | Some b => [b]
  | None => []
  end.

Definition secure : Platform := {|
  toLowerCase := Sample.lower;
  toLowerCase_idem := SampleLaws.lower_idem;
  toLowerCase_empty := eq_refl;
  crypto_subtle_digest := Some checksum;
  textEncoder_encode := Some list_byte_of_string;
  btoa := Sample.btoa;
  btoa_ascii := SampleLaws.btoa_ascii;
  toISOString := Sample.toISOString;
  Date_getTime := Sample.Date_getTime;
  accounts_json := accountsCodec;
  tokens_json := tokensCodec;
|}.

(** A page rendered where [window] is undefined. *)
Definition offline : AuthState :=
  {| window := None; user := None; loading := false; error := None |}.

(** A value of [Math.random()]: one quarter, for which the code is 325000. *)
Definition quarter : Random := {| significand := 1; scale := 2 |}.

Definition blank : AuthForm.t :=
  {| AuthForm.email := ""; AuthForm.password := ""; AuthForm.confirmPassword := "";
     AuthForm.otpInput := ""; AuthForm.resetEmail := None; AuthForm.generatedOtp := None;
     AuthForm.loading := false |}.

(** The sign-up form filled in on a fresh page. *)
Definition signupPage : Page :=
  {| authMode := signup;
     form := {| AuthForm.email := "A@b.com"; AuthForm.password := "p";
                AuthForm.confirmPassword := "p"; AuthForm.otpInput := "";
                AuthForm.resetEmail := None; AuthForm.generatedOtp := None;
                AuthForm.loading := false |};
     context := fresh; alerts := [] |}.

(** The request form filled in for an account that is signed out. *)
Definition forgotPage : Page :=
  {| authMode := forgot;
     form := {| AuthForm.email := "A@B.com"; AuthForm.password := "";
                AuthForm.confirmPassword := ""; AuthForm.otpInput := "";
                AuthForm.resetEmail := None; AuthForm.generatedOtp := None;
                AuthForm.loading := false |};
     context := runOperations [SignUp 0 "A@b.com" "p"; SignOut] fresh; alerts := [] |}.

(** The reset form filled in after that request with the code shown. *)
Definition resetPage : Page :=
  {| authMode := reset;
     form := {| AuthForm.email := "A@B.com"; AuthForm.password := "new";
                AuthForm.confirmPassword := "new"; AuthForm.otpInput := "550000";
                AuthForm.resetEmail := Some "a@b.com"; AuthForm.generatedOtp := Some "550000";
                AuthForm.loading := false |};
     context := requested; alerts := [] |}.

(** The same two forms for the account whose email is the empty string. *)
Definition forgotEmptyPage : Page :=
  {| authMode := forgot; form := blank;
     context := runOperations [SignUp 0 "" "pw"; SignOut] fresh; alerts := [] |}.

Definition resetEmptyPage : Page :=
  {| authMode := reset;
     form := {| AuthForm.email := ""; AuthForm.password := "new";
                AuthForm.confirmPassword := "new"; AuthForm.otpInput := "550000";
                AuthForm.resetEmail := Some ""; AuthForm.generatedOtp := Some "550000";
                AuthForm.loading := false |};
     context := requestedEmpty; alerts := [] |}.

End SampleForm.

(** ** Reading back what was stored *)

Ltac some_iff := split; intros [? ?]; try discriminate; eauto.

Section StoreFacts.
Context `{platform : Platform}.

Lemma stringify_nonempty {T} `{Json T} (l : list T) : (JSON_stringify l =? "")%string = false.
Proof.
  destruct (String.eqb_spec (JSON_stringify l) "") as [Heq | Hne]; [| reflexivity].
  pose proof (JSON_parse_stringify l) as Hp.
  rewrite Heq, JSON_parse_empty in Hp. discriminate.
Qed.

Lemma getAccounts_persistAccounts accounts st :
  is_Some (window st) -> getAccounts (persistAccounts accounts st) = accounts.
Proof.
  intros [ls Hw]. unfold getAccounts, persistAccounts. rewrite Hw. simpl.
  rewrite lookup_insert_eq, stringify_nonempty, JSON_parse_stringify. reflexivity.
Qed.

Lemma getResetTokens_persistResetTokens tokens st :
  is_Some (window st) -> getResetTokens (persistResetTokens tokens st) = tokens.
Proof.
  intros [ls Hw]. unfold getResetTokens, persistResetTokens. rewrite Hw. simpl.
  rewrite lookup_insert_eq, stringify_nonempty, JSON_parse_stringify. reflexivity.
Qed.

Lemma getAccounts_persistResetTokens tokens st :
  getAccounts (persistResetTokens tokens st) = getAccounts st.
Proof.
  unfold getAccounts, persistResetTokens. destruct (window st) as [ls |] eqn:Hw; simpl.
  - rewrite lookup_insert_ne; [reflexivity | discriminate].
  - now rewrite Hw.
Qed.

Lemma getAccounts_persistSession email st :
  getAccounts (persistSession email st) = getAccounts st.
Proof.
  unfold getAccounts, persistSession. destruct (window st) as [ls |] eqn:Hw; simpl.
  - destruct email as [e |]; [destruct (e =? "")%string |]; simpl;
      rewrite ?lookup_delete_ne, ?lookup_insert_ne by discriminate; reflexivity.
  - now rewrite Hw.
Qed.

Lemma getResetTokens_persistAccounts accounts st :
  getResetTokens (persistAccounts accounts st) = getResetTokens st.
Proof.
  unfold getResetTokens, persistAccounts. destruct (window st) as [ls |] eqn:Hw; simpl.
  - rewrite lookup_insert_ne; [reflexivity | discriminate].
  - now rewrite Hw.
Qed.

Lemma getResetTokens_persistSession email st :
  getResetTokens (persistSession email st) = getResetTokens st.
Proof.
  unfold getResetTokens, persistSession. destruct (window st) as [ls |] eqn:Hw; simpl.
  - destruct email as [e |]; [destruct (e =? "")%string |]; simpl;
      rewrite ?lookup_delete_ne, ?lookup_insert_ne by discriminate; reflexivity.
  - now rewrite Hw.
Qed.

Lemma getSession_persistAccounts accounts st :
  getSession (persistAccounts accounts st) = getSession st.
Proof.
  unfold getSession, persistAccounts. destruct (window st) as [ls |] eqn:Hw; simpl.
  - rewrite lookup_insert_ne; [reflexivity | discriminate].
  - now rewrite Hw.
Qed.

Lemma getSession_persistResetTokens tokens st :
  getSession (persistResetTokens tokens st) = getSession st.
Proof.
  unfold getSession, persistResetTokens. destruct (window st) as [ls |] eqn:Hw; simpl.
  - rewrite lookup_insert_ne; [reflexivity | discriminate].
  - now rewrite Hw.
Qed.

Lemma getSession_persistSession_None st : getSession (persistSession None st) = None.
Proof.
  unfold getSession, persistSession. destruct (window st) as [ls |] eqn:Hw; simpl.
  - apply lookup_delete_eq.
  - now rewrite Hw.
Qed.

Lemma getSession_persistSession_Some e st :
  is_Some (window st) ->
  getSession (persistSession (Some e) st) = if (e =? "")%string then None else Some e.
Proof.
  intros [ls Hw]. unfold getSession, persistSession. rewrite Hw.
  destruct (e =? "")%string; simpl; [apply lookup_delete_eq | apply lookup_insert_eq].
Qed.

Lemma window_persistAccounts accounts st :
  is_Some (window (persistAccounts accounts st)) <-> is_Some (window st).
Proof. unfold persistAccounts. destruct (window st) eqn:Hw; simpl; [| rewrite Hw]; some_iff. Qed.

Lemma window_persistResetTokens tokens st :
  is_Some (window (persistResetTokens tokens st)) <-> is_Some (window st).
Proof. unfold persistResetTokens. destruct (window st) eqn:Hw; simpl; [| rewrite Hw]; some_iff. Qed.

Lemma user_persistAccounts accounts st : user (persistAccounts accounts st) = user st.
Proof. unfold persistAccounts. now destruct (window st). Qed.

Lemma user_persistResetTokens tokens st : user (persistResetTokens tokens st) = user st.
Proof. unfold persistResetTokens. now destruct (window st). Qed.

Lemma user_persistSession email st : user (persistSession email st) = user st.
Proof.
  unfold persistSession. destruct (window st); [| reflexivity].
  destruct email as [e |]; [destruct (e =? "")%string |]; reflexivity.
Qed.

(** A store exists as soon as it holds an account or a token. *)
Lemma getAccounts_window st : getAccounts st <> [] -> is_Some (window st).
Proof. unfold getAccounts. destruct (window st); [eauto | congruence]. Qed.

Lemma getResetTokens_window st : getResetTokens st <> [] -> is_Some (window st).
Proof. unfold getResetTokens. destruct (window st); [eauto | congruence]. Qed.

End StoreFacts.

Create Rewrite HintDb store.
#[export] Hint Rewrite
  @getAccounts_persistResetTokens @getAccounts_persistSession
  @getResetTokens_persistAccounts @getResetTokens_persistSession
  @getSession_persistAccounts @getSession_persistResetTokens
  @getSession_persistSession_None
  @user_persistAccounts @user_persistResetTokens @user_persistSession : store.

(** ** The operations, case by case *)

Section Unfoldings.
Context `{platform : Platform}.

Lemma signUp_unfold now email password st :
  signUp now email password st =
  if List.existsb (hasEmail (toLowerCase email)) (getAccounts st)
  then (Rejected DuplicateAccount, failed DuplicateAccount st)
  else match hashString password with
       | Rejected err => (Rejected err, failed err st)
       | Resolved passwordHash =>
           let newAccount :=
             {| StoredAccount.email := toLowerCase email;
                StoredAccount.passwordHash := passwordHash;
                StoredAccount.createdAt := toISOString now |} in
           (Resolved tt,
            persistSession (Some (toLowerCase email))
              (setUser (Some (projection newAccount))
                 (persistAccounts (getAccounts st ++ [newAccount]) (setError None st))))
       end.
Proof.
  unfold signUp, runAuthAction, bind, try_catch, gets, modify, await, throw, failed.
  change (getAccounts (setError None st)) with (getAccounts st).
  fold (hasEmail (toLowerCase email)).
  destruct (List.existsb _ _); [reflexivity |].
  destruct (hashString password); reflexivity.
Qed.

Lemma signIn_unfold email password st :
  signIn email password st =
  match List.find (hasEmail (toLowerCase email)) (getAccounts st) with
  | None => (Rejected AccountNotFound_signIn, failed AccountNotFound_signIn st)
  | Some existing =>
      match hashString password with
      | Rejected err => (Rejected err, failed err st)
      | Resolved hash =>
          if (StoredAccount.passwordHash existing =? hash)%string
          then (Resolved tt,
                persistSession (Some (StoredAccount.email existing))
                  (setUser (Some (projection existing)) (setError None st)))
          else (Rejected InvalidCredential, failed InvalidCredential st)
      end
  end.
Proof.
  unfold signIn, runAuthAction, bind, try_catch, gets, modify, await, throw, failed.
  change (getAccounts (setError None st)) with (getAccounts st).
  fold (hasEmail (toLowerCase email)).
  destruct (List.find _ _) as [existing |]; [| reflexivity].
  destruct (hashString password) as [hash | err]; [| reflexivity].
  destruct (StoredAccount.passwordHash existing =? hash)%string; reflexivity.
Qed.

Lemma signOut_unfold st :
  signOut st = (Resolved tt, setUser None (persistSession None (setError None st))).
Proof. reflexivity. Qed.

Lemma requestPasswordReset_unfold random now email st :
  requestPasswordReset random now email st =
  match List.find (hasEmail (toLowerCase email)) (getAccounts st) with
  | None => (Rejected AccountNotFound_request, failed AccountNotFound_request st)
  | Some existing =>
      match hashString (generateOtp random) with
      | Rejected err => (Rejected err, failed err st)
      | Resolved otpHash =>
          (Resolved (generateOtp random),
           persistResetTokens
             (List.filter (otherEmail (toLowerCase email)) (getResetTokens st)
              ++ [ {| PasswordResetToken.email := toLowerCase email;
                      PasswordResetToken.otpHash := otpHash;
                      PasswordResetToken.expiresAt := toISOString (now + 600000) |} ])%list
             (setError None st))
      end
  end.
Proof.
  unfold requestPasswordReset, runAuthAction, bind, try_catch, gets, modify, await, throw,
    ret, failed.
  change (getAccounts (setError None st)) with (getAccounts st).
  change (getResetTokens (setError None st)) with (getResetTokens st).
  fold (hasEmail (toLowerCase email)).
  destruct (List.find _ _) as [existing |]; [| reflexivity].
  destruct (hashString (generateOtp random)) as [otpHash | err]; reflexivity.
Qed.

Lemma verifyPasswordReset_unfold now email otp newPassword st :
  verifyPasswordReset now email otp newPassword st =
  let normalizedEmail := toLowerCase email in
  let tokens := getResetTokens st in
  let withoutEmail := List.filter (otherEmail normalizedEmail) tokens in
  match List.find (forEmail normalizedEmail) tokens with
  | None => (Rejected ResetNotFound, failed ResetNotFound st)
  | Some token =>
      if isExpired now token
      then (Rejected ResetExpired,
            setError (Some (errorMessage ResetExpired))
              (persistResetTokens withoutEmail (setError None st)))
      else
        match hashString otp with
        | Rejected err => (Rejected err, failed err st)
        | Resolved providedHash =>
            if (providedHash =? PasswordResetToken.otpHash token)%string
            then
              match findIndex (hasEmail normalizedEmail) (getAccounts st) with
              | None => (Rejected AccountNotFound_verify, failed AccountNotFound_verify st)
              | Some existingIndex =>
                  match hashString newPassword with
                  | Rejected err => (Rejected err, failed err st)
                  | Resolved newHash =>
                      let updatedAccounts :=
                        alter (withPasswordHash newHash) existingIndex (getAccounts st) in
                      let written :=
                        persistResetTokens withoutEmail
                          (persistAccounts updatedAccounts (setError None st)) in
                      match updatedAccounts !! existingIndex with
                      | None =>
                          (Rejected TypeError,
                           setError (Some (errorMessage TypeError)) written)
                      | Some updated =>
                          (Resolved tt,
                           persistSession (Some (StoredAccount.email updated))
                             (setUser (Some (projection updated)) written))
                      end
                  end
              end
            else (Rejected InvalidCode, failed InvalidCode st)
        end
  end.
Proof.
  unfold verifyPasswordReset, runAuthAction, bind, try_catch, gets, modify, await, throw,
    failed.
  change (getAccounts (setError None st)) with (getAccounts st).
  change (getResetTokens (setError None st)) with (getResetTokens st).
  cbv zeta.
  fold (forEmail (toLowerCase email)) (hasEmail (toLowerCase email)).
  destruct (List.find _ _) as [token |]; [| reflexivity].
  destruct (isExpired now token); [reflexivity |].
  destruct (hashString otp) as [providedHash | err]; [| reflexivity].
  destruct (providedHash =? PasswordResetToken.otpHash token)%string; [| reflexivity].
  cbn [negb].
  change (getAccounts (setError None st)) with (getAccounts st).
  destruct (findIndex _ _) as [existingIndex |]; [| reflexivity].
  destruct (hashString newPassword) as [newHash | err]; [| reflexivity].
  fold (withPasswordHash newHash).
  destruct (alter _ _ _ !! existingIndex); reflexivity.
Qed.

Lemma refreshSession_unfold st :
  refreshSession st =
  match loadAccountForEmail (getSession st) st with
  | Some account => (Resolved true, setUser (Some (projection account)) (setError None st))
  | None => (Resolved false, setUser None (persistSession None (setError None st)))
  end.
Proof.
  unfold refreshSession, runAuthAction, bind, try_catch, gets, modify, ret.
  change (getSession (setError None st)) with (getSession st).
  change (loadAccountForEmail (getSession st) (setError None st))
    with (loadAccountForEmail (getSession st) st).
  destruct (loadAccountForEmail _ _); reflexivity.
Qed.

Lemma initialiseSession_unfold st :
  initialiseSession st =
  match loadAccountForEmail (getSession st) st with
  | Some account => (Resolved tt, setLoading false (setUser (Some (projection account)) st))
  | None => (Resolved tt, setLoading false (setUser None (persistSession None st)))
  end.
Proof.
  unfold initialiseSession, bind, gets, modify.
  destruct (loadAccountForEmail _ _); reflexivity.
Qed.

End Unfoldings.

(** ** Searching and filtering lists *)

Section ListFacts.
Context {A : Type} (p : A -> bool).

Lemma find_None_existsb (l : list A) : List.find p l = None <-> List.existsb p l = false.
Proof.
  induction l as [| x l IH]; simpl; [tauto |].
  destruct (p x); simpl; [split; discriminate | exact IH].
Qed.

Lemma find_None_forall (l : list A) : List.find p l = None <-> forall x, x ∈ l -> p x = false.
Proof.
  induction l as [| x l IH]; simpl.
  - split; [intros _ x Hx; inversion Hx | reflexivity].
  - destruct (p x) eqn:Hp.
    + split; [discriminate |]. intros H. specialize (H x (list_elem_of_here x l)). congruence.
    + rewrite IH. split.
      * intros H y Hy. apply elem_of_cons in Hy as [-> | Hy]; auto.
      * intros H y Hy. apply H. now apply list_elem_of_further.
Qed.

Lemma find_app_last (l : list A) (x : A) :
  List.find p l = None -> List.find p (l ++ [x]) = if p x then Some x else None.
Proof.
  induction l as [| y l IH]; simpl; [reflexivity |].
  destruct (p y); [discriminate | exact IH].
Qed.

Lemma find_filter_negb (l : list A) : List.find p (List.filter (fun x => negb (p x)) l) = None.
Proof.
  induction l as [| x l IH]; simpl; [reflexivity |].
  destruct (p x) eqn:Hp; simpl; [exact IH | now rewrite Hp].
Qed.

Lemma findIndex_lookup (l : list A) (i : nat) :
  findIndex p l = Some i ->
  exists x, l !! i = Some x /\ p x = true /\ List.find p l = Some x.
Proof.
  revert i. induction l as [| y l IH]; simpl; intros i; [discriminate |].
  destruct (p y) eqn:Hp.
  - intros [= <-]. eauto.
  - destruct (findIndex p l) as [j |]; simpl; [| discriminate].
    intros [= <-]. destruct (IH j eq_refl) as (x & Hx & Hpx & Hf). eauto.
Qed.

Lemma find_findIndex (l : list A) (x : A) :
  List.find p l = Some x -> exists i, findIndex p l = Some i /\ l !! i = Some x.
Proof.
  induction l as [| y l IH]; simpl; [discriminate |].
  destruct (p y) eqn:Hp.
  - intros [= ->]. exists O. eauto.
  - intros H. destruct (IH H) as (i & Hi & Hx). exists (S i). rewrite Hi. eauto.
Qed.

End ListFacts.

(** ** State cells and the store *)

Section CellFacts.
Context `{platform : Platform}.

Lemma getAccounts_setUser u st : getAccounts (setUser u st) = getAccounts st.
Proof. reflexivity. Qed.
Lemma getAccounts_setError e st : getAccounts (setError e st) = getAccounts st.
Proof. reflexivity. Qed.
Lemma getAccounts_setLoading b st : getAccounts (setLoading b st) = getAccounts st.
Proof. reflexivity. Qed.
Lemma getResetTokens_setUser u st : getResetTokens (setUser u st) = getResetTokens st.
Proof. reflexivity. Qed.
Lemma getResetTokens_setError e st : getResetTokens (setError e st) = getResetTokens st.
Proof. reflexivity. Qed.
Lemma getResetTokens_setLoading b st : getResetTokens (setLoading b st) = getResetTokens st.
Proof. reflexivity. Qed.
Lemma getSession_setUser u st : getSession (setUser u st) = getSession st.
Proof. reflexivity. Qed.
Lemma getSession_setError e st : getSession (setError e st) = getSession st.
Proof. reflexivity. Qed.
Lemma getSession_setLoading b st : getSession (setLoading b st) = getSession st.
Proof. reflexivity. Qed.

Lemma user_setUser u st : user (setUser u st) = u.
Proof. reflexivity. Qed.
Lemma user_setError e st : user (setError e st) = user st.
Proof. reflexivity. Qed.
Lemma user_setLoading b st : user (setLoading b st) = user st.
Proof. reflexivity. Qed.

Lemma getAccounts_written accounts st :
  getAccounts (persistAccounts accounts st)
  = match window st with Some _ => accounts | None => [] end.
Proof.
  destruct (window st) as [ls |] eqn:Hw.
  - apply getAccounts_persistAccounts. rewrite Hw. eauto.
  - unfold getAccounts, persistAccounts. now rewrite Hw, Hw.
Qed.

Lemma getResetTokens_written tokens st :
  getResetTokens (persistResetTokens tokens st)
  = match window st with Some _ => tokens | None => [] end.
Proof.
  destruct (window st) as [ls |] eqn:Hw.
  - apply getResetTokens_persistResetTokens. rewrite Hw. eauto.
  - unfold getResetTokens, persistResetTokens. now rewrite Hw, Hw.
Qed.

Lemma getAccounts_empty st : window st = Some ∅ -> getAccounts st = [].
Proof. intros Hw. unfold getAccounts. now rewrite Hw, lookup_empty. Qed.

Lemma getResetTokens_empty st : window st = Some ∅ -> getResetTokens st = [].
Proof. intros Hw. unfold getResetTokens. now rewrite Hw, lookup_empty. Qed.

Lemma hashString_ascii (s : string) :
  forallb isAscii (list_ascii_of_string s) = true -> exists h, hashString s = Resolved h.
Proof.
  intros Hs. unfold hashString.
  destruct crypto_subtle_digest, textEncoder_encode; eauto using btoa_ascii.
Qed.

(** Where [crypto.subtle] and [TextEncoder] exist every string has a digest. *)
Lemma hashString_secure (s : string) :
  is_Some crypto_subtle_digest -> is_Some textEncoder_encode ->
  exists h, hashString s = Resolved h.
Proof. intros [digest Hd] [encode He]. unfold hashString. rewrite Hd, He. eauto. Qed.

Lemma hasEmail_refl (a : StoredAccount.t) : hasEmail (StoredAccount.email a) a = true.
Proof. apply String.eqb_refl. Qed.

Lemma hasEmail_eq (n : string) (a : StoredAccount.t) :
  hasEmail n a = true <-> StoredAccount.email a = n.
Proof. apply String.eqb_eq. Qed.

Lemma forEmail_eq (n : string) (t : PasswordResetToken.t) :
  forEmail n t = true <-> PasswordResetToken.email t = n.
Proof. apply String.eqb_eq. Qed.

End CellFacts.

#[export] Hint Rewrite
  @getAccounts_setUser @getAccounts_setError @getAccounts_setLoading
  @getResetTokens_setUser @getResetTokens_setError @getResetTokens_setLoading
  @getSession_setUser @getSession_setError @getSession_setLoading
  @user_setUser @user_setError @user_setLoading
  @getAccounts_written @getResetTokens_written : store.

(** ** Sign-up and sign-in *)

Section Credentials.
Context `{platform : Platform}.

(** What a successful sign-up has done. *)
Lemma signUp_resolved now email password st st1 :
  signUp now email password st = (Resolved tt, st1) ->
  exists passwordHash,
    let newAccount :=
      {| StoredAccount.email := toLowerCase email;
         StoredAccount.passwordHash := passwordHash;
         StoredAccount.createdAt := toISOString now |} in
    hashString password = Resolved passwordHash
    /\ List.find (hasEmail (toLowerCase email)) (getAccounts st) = None
    /\ st1 = persistSession (Some (toLowerCase email))
               (setUser (Some (projection newAccount))
                  (persistAccounts (getAccounts st ++ [newAccount]) (setError None st))).
Proof.
  rewrite signUp_unfold.
  destruct (List.existsb _ _) eqn:Hdup; [discriminate |].
  destruct (hashString password) as [h | err]; [| discriminate].
  intros [= <-]. exists h. repeat split. now apply find_None_existsb.
Qed.

(** C1. Credential round trip, with the email compared up to letter case:
    after a successful [signUp e pw], [signIn e' pw] succeeds for every [e']
    with the same lower-case form as [e] and authenticates that account;
    [signIn e (pw + "x")] is rejected with [InvalidCredential] (the digest being
    one that tells [pw + "x"] from [pw]). The store may hold other accounts
    already; the empty store is the case [window st = Some ∅]. *)
Theorem credential_round_trip now e e' pw st st1 :
  is_Some (window st) ->
  signUp now e pw st = (Resolved tt, st1) ->
  toLowerCase e' = toLowerCase e ->
  (exists st2,
      signIn e' pw st1 = (Resolved tt, st2)
      /\ user st2 = Some {| AuthUser.email := toLowerCase e;
                            AuthUser.createdAt := toISOString now |}
      /\ isAuthenticated st2 = true)
  /\ (distinctDigests pw (pw ++ "x") ->
      exists st3, signIn e (pw ++ "x") st1 = (Rejected InvalidCredential, st3)).
Proof.
  intros Hw Hup Hcase.
  destruct (signUp_resolved _ _ _ _ _ Hup) as (h & Hh & Hnew & ->).
  set (newAccount := {| StoredAccount.email := toLowerCase e;
                        StoredAccount.passwordHash := h;
                        StoredAccount.createdAt := toISOString now |}).
  assert (Hacc : forall u, getAccounts
            (persistSession (Some (toLowerCase e))
               (setUser u (persistAccounts (getAccounts st ++ [newAccount])
                             (setError None st))))
          = (getAccounts st ++ [newAccount])%list).
  { intros u. autorewrite with store. simpl. now destruct Hw as [ls ->]. }
  assert (Hfind : List.find (hasEmail (toLowerCase e)) (getAccounts st ++ [newAccount])
                  = Some newAccount).
  { rewrite find_app_last by assumption.
    now replace (hasEmail (toLowerCase e) newAccount) with true
      by (symmetry; apply (hasEmail_refl newAccount)). }
  split.
  - rewrite signIn_unfold, Hacc, Hcase, Hfind, Hh. simpl StoredAccount.passwordHash.
    rewrite String.eqb_refl. eexists. split; [reflexivity |].
    unfold isAuthenticated. autorewrite with store. simpl. auto.
  - intros (ha & hb & Ha & Hb & Hne).
    rewrite signIn_unfold, Hacc, Hfind, Hb. simpl StoredAccount.passwordHash.
    assert (h = ha) as -> by congruence.
    destruct (String.eqb_spec ha hb) as [-> | _]; [congruence |].
    eexists. reflexivity.
Qed.

(** C10. No validation at the boundary: on an empty store [signUp "" ""]
    succeeds, stores an account whose email is the empty string and
    authenticates it, and [signIn "" ""] then succeeds. *)
Theorem empty_credentials_accepted now st :
  window st = Some ∅ ->
  exists h st1 st2,
    signUp now "" "" st = (Resolved tt, st1)
    /\ getAccounts st1 = [ {| StoredAccount.email := "";
                              StoredAccount.passwordHash := h;
                              StoredAccount.createdAt := toISOString now |} ]
    /\ user st1 = Some {| AuthUser.email := ""; AuthUser.createdAt := toISOString now |}
    /\ isAuthenticated st1 = true
    /\ signIn "" "" st1 = (Resolved tt, st2)
    /\ isAuthenticated st2 = true.
Proof.
  intros Hw.
  destruct (hashString_ascii "" eq_refl) as [h Hh].
  assert (Hacc : forall u, getAccounts
            (persistSession (Some "")
               (setUser u (persistAccounts
                  [ {| StoredAccount.email := ""; StoredAccount.passwordHash := h;
                       StoredAccount.createdAt := toISOString now |} ]
                             (setError None st))))
          = [ {| StoredAccount.email := ""; StoredAccount.passwordHash := h;
                 StoredAccount.createdAt := toISOString now |} ]).
  { intros u. autorewrite with store. simpl. now rewrite Hw. }
  exists h. eexists. eexists.
  rewrite signUp_unfold, (getAccounts_empty st Hw), toLowerCase_empty, Hh. simpl.
  split; [reflexivity |].
  rewrite Hacc. split; [reflexivity |].
  unfold isAuthenticated. autorewrite with store. simpl.
  split; [reflexivity |]. split; [reflexivity |].
  rewrite signIn_unfold, Hacc, toLowerCase_empty. simpl. rewrite Hh, String.eqb_refl.
  split; [reflexivity |].
  autorewrite with store. reflexivity.
Qed.

End Credentials.

(** ** One account per email *)

Section Uniqueness.
Context `{platform : Platform}.

Lemma getAccounts_no_window st : window st = None -> getAccounts st = [].
Proof. intros Hw. unfold getAccounts. now rewrite Hw. Qed.

Lemma getResetTokens_no_window st : window st = None -> getResetTokens st = [].
Proof. intros Hw. unfold getResetTokens. now rewrite Hw. Qed.

Lemma perform_accounts (op : Operation) (st : AuthState) :
  accountsStep (getAccounts st) (getAccounts (snd (perform op st))).
Proof.
  destruct op as [| | e pw | now e pw | | random now e | now e otp pw |];
    unfold perform, returning.
  - rewrite initialiseSession_unfold.
    destruct (loadAccountForEmail _ _); simpl; autorewrite with store; constructor.
  - simpl. constructor.
  - rewrite signIn_unfold.
    destruct (List.find _ _); [destruct (hashString pw); [destruct (_ =? _)%string |] |];
      simpl; autorewrite with store; constructor.
  - rewrite signUp_unfold.
    destruct (List.existsb _ _) eqn:Hdup; [simpl; constructor |].
    destruct (hashString pw) as [h | err]; simpl; autorewrite with store; [| constructor].
    simpl. destruct (window st) eqn:Hw.
    + apply accounts_added; simpl; [now apply find_None_existsb | apply toLowerCase_idem].
    + rewrite (getAccounts_no_window st Hw). constructor.
  - rewrite signOut_unfold. simpl. autorewrite with store. constructor.
  - rewrite requestPasswordReset_unfold.
    destruct (List.find _ _); [destruct (hashString _) |];
      simpl; autorewrite with store; constructor.
  - rewrite verifyPasswordReset_unfold. cbv zeta.
    destruct (List.find _ _) as [token |]; [| simpl; constructor].
    destruct (isExpired now token); [simpl; autorewrite with store; constructor |].
    destruct (hashString otp) as [provided | err]; [| simpl; constructor].
    destruct (provided =? _)%string; [| simpl; constructor].
    destruct (findIndex _ _) as [i |]; [| simpl; constructor].
    destruct (hashString pw) as [h | err]; [| simpl; constructor].
    destruct (alter _ _ _ !! i); simpl; autorewrite with store; simpl;
      (destruct (window st) eqn:Hw;
       [apply accounts_updated
       | rewrite (getAccounts_no_window st Hw); constructor]).
  - rewrite refreshSession_unfold.
    destruct (loadAccountForEmail _ _); simpl; autorewrite with store; constructor.
Qed.

Lemma email_alter (h : string) (i : nat) (l : list StoredAccount.t) :
  StoredAccount.email <$> alter (withPasswordHash h) i l = StoredAccount.email <$> l.
Proof.
  revert i. induction l as [| a l IH]; intros [| i]; simpl; try reflexivity.
  f_equal. apply IH.
Qed.

Lemma not_in_emails (n : string) (l : list StoredAccount.t) :
  List.find (hasEmail n) l = None -> n ∉ StoredAccount.email <$> l.
Proof.
  intros Hnone Hin. apply list_elem_of_fmap in Hin as (a & -> & Ha).
  pose proof (proj1 (find_None_forall _ _) Hnone a Ha) as Hf.
  now rewrite hasEmail_refl in Hf.
Qed.

Lemma accountsStep_unique (l l' : list StoredAccount.t) :
  accountsStep l l' ->
  NoDup (StoredAccount.email <$> l) /\ Forall normalized l ->
  NoDup (StoredAccount.email <$> l') /\ Forall normalized l'.
Proof.
  intros Hstep [Hnd Hnorm]. destruct Hstep as [| a Hfresh Ha | i h].
  - now split.
  - split.
    + rewrite fmap_app. apply NoDup_app. repeat split; [assumption | | apply NoDup_singleton].
      intros x Hx Hxa. apply list_elem_of_singleton in Hxa. subst x.
      now apply (not_in_emails _ _ Hfresh).
    + apply Forall_app. split; [assumption | now constructor].
  - split.
    + now rewrite email_alter.
    + apply Forall_alter; [assumption |]. intros a _ Ha. exact Ha.
Qed.

Lemma perform_unique (op : Operation) (st : AuthState) :
  uniqueAccounts st -> uniqueAccounts (snd (perform op st)).
Proof. apply accountsStep_unique, perform_accounts. Qed.

Lemma runOperations_unique (ops : list Operation) (st : AuthState) :
  uniqueAccounts st -> uniqueAccounts (runOperations ops st).
Proof.
  revert st. induction ops as [| op ops IH]; intros st Hst; [exact Hst |].
  apply IH, perform_unique, Hst.
Qed.

Lemma empty_unique st : getAccounts st = [] -> uniqueAccounts st.
Proof. intros Hl. unfold uniqueAccounts. rewrite Hl. split; constructor. Qed.

(** C2. Account uniqueness: after any sequence of operations from the empty
    store no two stored accounts share a lower-cased email, and a [signUp]
    whose lower-cased email is that of a stored account, in whatever letter
    case it is typed, is rejected with [DuplicateAccount] and leaves the
    accounts as they are. *)
Theorem account_uniqueness (ops : list Operation) (st0 : AuthState) :
  window st0 = Some ∅ ->
  let st := runOperations ops st0 in
  NoDup ((fun a => toLowerCase (StoredAccount.email a)) <$> getAccounts st)
  /\ forall now e pw a,
       a ∈ getAccounts st ->
       toLowerCase (StoredAccount.email a) = toLowerCase e ->
       exists st',
         signUp now e pw st = (Rejected DuplicateAccount, st')
         /\ getAccounts st' = getAccounts st.
Proof.
  intros Hw st.
  assert (Hu : uniqueAccounts st).
  { apply runOperations_unique, empty_unique, getAccounts_empty, Hw. }
  destruct Hu as [Hnd Hnorm]. split.
  - erewrite list_fmap_ext; [exact Hnd |].
    intros i a Ha. simpl.
    eapply (proj1 (Forall_forall _ _) Hnorm), list_elem_of_lookup_2, Ha.
  - intros now e pw a Ha He.
    rewrite signUp_unfold.
    assert (Hdup : List.existsb (hasEmail (toLowerCase e)) (getAccounts st) = true).
    { apply existsb_exists. exists a. split; [now apply list_elem_of_In |].
      apply hasEmail_eq. rewrite <- He.
      symmetry. apply (proj1 (Forall_forall _ _) Hnorm a Ha). }
    rewrite Hdup. eexists. split; reflexivity.
Qed.

End Uniqueness.

(** ** Resetting a password *)

Section Reset.
Context `{platform : Platform}.

Lemma verifyPasswordReset_resolved now email otp newPassword st token i newHash :
  List.find (forEmail (toLowerCase email)) (getResetTokens st) = Some token ->
  isExpired now token = false ->
  hashString otp = Resolved (PasswordResetToken.otpHash token) ->
  findIndex (hasEmail (toLowerCase email)) (getAccounts st) = Some i ->
  hashString newPassword = Resolved newHash ->
  exists account,
    getAccounts st !! i = Some account
    /\ StoredAccount.email account = toLowerCase email
    /\ verifyPasswordReset now email otp newPassword st
       = (Resolved tt, verified (toLowerCase email) newHash i account st).
Proof.
  intros Htok Hlive Hotp Hidx Hnew.
  destruct (findIndex_lookup _ _ _ Hidx) as (account & Hacc & Hp & _).
  exists account. split; [exact Hacc |]. split; [now apply hasEmail_eq |].
  rewrite verifyPasswordReset_unfold. cbv zeta.
  rewrite Htok, Hlive, Hotp, String.eqb_refl, Hidx, Hnew.
  rewrite list_lookup_alter_eq, Hacc. reflexivity.
Qed.

Lemma verifyPasswordReset_not_found now email otp newPassword st :
  List.find (forEmail (toLowerCase email)) (getResetTokens st) = None ->
  verifyPasswordReset now email otp newPassword st
  = (Rejected ResetNotFound, failed ResetNotFound st).
Proof. intros Hnone. rewrite verifyPasswordReset_unfold. cbv zeta. now rewrite Hnone. Qed.

Lemma find_token_window n st token :
  List.find (forEmail n) (getResetTokens st) = Some token -> is_Some (window st).
Proof.
  intros Hf. apply getResetTokens_window. intros Hnil. rewrite Hnil in Hf. discriminate.
Qed.

(** C3, as the code has it. With a live token for the lower-cased email, a
    code whose digest is the stored one and an account for that email,
    [verifyPasswordReset] replaces the digest of that account and nothing
    else in the accounts, deletes the tokens of the email, authenticates the
    account, and an immediate second call is rejected with [ResetNotFound].
    The session pointer is set to the email unless the email is the empty
    string, which [persistSession] treats as no session: then the pointer is
    cleared. *)
Theorem verifyPasswordReset_success now email otp newPassword st token account newHash :
  List.find (forEmail (toLowerCase email)) (getResetTokens st) = Some token ->
  isExpired now token = false ->
  hashString otp = Resolved (PasswordResetToken.otpHash token) ->
  List.find (hasEmail (toLowerCase email)) (getAccounts st) = Some account ->
  hashString newPassword = Resolved newHash ->
  exists i st',
    getAccounts st !! i = Some account
    /\ verifyPasswordReset now email otp newPassword st = (Resolved tt, st')
    /\ getAccounts st' !! i
       = Some {| StoredAccount.email := StoredAccount.email account;
                 StoredAccount.passwordHash := newHash;
                 StoredAccount.createdAt := StoredAccount.createdAt account |}
    /\ length (getAccounts st') = length (getAccounts st)
    /\ (forall j, j <> i -> getAccounts st' !! j = getAccounts st !! j)
    /\ getResetTokens st'
       = List.filter (otherEmail (toLowerCase email)) (getResetTokens st)
    /\ List.find (forEmail (toLowerCase email)) (getResetTokens st') = None
    /\ user st' = Some {| AuthUser.email := StoredAccount.email account;
                          AuthUser.createdAt := StoredAccount.createdAt account |}
    /\ isAuthenticated st' = true
    /\ getSession st'
       = (if (StoredAccount.email account =? "")%string
          then None else Some (StoredAccount.email account))
    /\ forall now',
         exists st'', verifyPasswordReset now' email otp newPassword st'
                      = (Rejected ResetNotFound, st'').
Proof.
  intros Htok Hlive Hotp Hfind Hnew.
  destruct (find_findIndex _ _ _ Hfind) as (i & Hidx & Hi).
  destruct (verifyPasswordReset_resolved _ _ _ _ _ _ _ _ Htok Hlive Hotp Hidx Hnew)
    as (account' & Hacc & Hemail & Hrun).
  assert (account' = account) as -> by congruence.
  destruct (find_token_window _ _ _ Htok) as [ls Hw].
  exists i, (verified (toLowerCase email) newHash i account st).
  assert (Haccs : getAccounts (verified (toLowerCase email) newHash i account st)
                  = alter (withPasswordHash newHash) i (getAccounts st)).
  { unfold verified. autorewrite with store. simpl. now rewrite Hw. }
  assert (Htoks : getResetTokens (verified (toLowerCase email) newHash i account st)
                  = List.filter (otherEmail (toLowerCase email)) (getResetTokens st)).
  { unfold verified. autorewrite with store.
    unfold persistAccounts. simpl. now rewrite Hw. }
  assert (Hgone : List.find (forEmail (toLowerCase email))
                    (getResetTokens (verified (toLowerCase email) newHash i account st))
                  = None).
  { rewrite Htoks. apply find_filter_negb. }
  repeat split; try assumption.
  - rewrite Haccs, list_lookup_alter_eq, Hacc. reflexivity.
  - rewrite Haccs. apply length_alter.
  - intros j Hj. rewrite Haccs. apply list_lookup_alter_ne. congruence.
  - unfold verified. autorewrite with store. reflexivity.
  - unfold isAuthenticated, verified. autorewrite with store. reflexivity.
  - unfold verified. rewrite getSession_persistSession_Some; [reflexivity |].
    simpl. apply window_persistResetTokens, window_persistAccounts. simpl.
    rewrite Hw. eauto.
  - intros now'. eexists. now apply verifyPasswordReset_not_found.
Qed.

End Reset.

(** ** Session resolution *)

Section Session.
Context `{platform : Platform}.

Lemma loadAccountForEmail_dangling st e :
  (forall a, a ∈ getAccounts st -> StoredAccount.email a <> toLowerCase e) ->
  loadAccountForEmail (Some e) st = None.
Proof.
  intros Hnone. unfold loadAccountForEmail.
  destruct (e =? "")%string; [reflexivity |].
  apply find_None_forall. intros a Ha.
  destruct (String.eqb_spec (StoredAccount.email a) (toLowerCase e)) as [Heq | Hne];
    [now apply Hnone in Ha | reflexivity].
Qed.

(** C4. Session self-healing: when the session pointer holds an email whose
    lower-case form is the email of no stored account, [refreshSession]
    resolves to [false], removes the pointer and leaves no user, so that
    [isAuthenticated] is false; the resolution at start-up clears the
    pointer and the user in the same way. *)
Theorem session_self_heal st e :
  getSession st = Some e ->
  (forall a, a ∈ getAccounts st -> StoredAccount.email a <> toLowerCase e) ->
  (exists st',
      refreshSession st = (Resolved false, st')
      /\ getSession st' = None /\ user st' = None /\ isAuthenticated st' = false)
  /\ (exists st',
         initialiseSession st = (Resolved tt, st')
         /\ getSession st' = None /\ user st' = None /\ isAuthenticated st' = false).
Proof.
  intros Hptr Hdangling.
  pose proof (loadAccountForEmail_dangling st e Hdangling) as Hload.
  split.
  - rewrite refreshSession_unfold, Hptr, Hload. eexists. split; [reflexivity |].
    unfold isAuthenticated. autorewrite with store. auto.
  - rewrite initialiseSession_unfold, Hptr, Hload. eexists. split; [reflexivity |].
    unfold isAuthenticated. autorewrite with store. auto.
Qed.

(** C9. [signOut] cannot fail: from every state it resolves, removes the
    session pointer and leaves [isAuthenticated] false; a second call
    resolves again and changes nothing. *)
Theorem signOut_idempotent st :
  exists st1,
    signOut st = (Resolved tt, st1)
    /\ getSession st1 = None
    /\ isAuthenticated st1 = false
    /\ signOut st1 = (Resolved tt, st1).
Proof.
  rewrite signOut_unfold. eexists. split; [reflexivity |].
  unfold isAuthenticated. autorewrite with store.
  repeat split.
  rewrite signOut_unfold. f_equal.
  unfold persistSession, setUser, setError, setWindow. simpl.
  destruct (window st) as [ls |]; simpl; [| reflexivity].
  now rewrite delete_delete_eq.
Qed.

End Session.

(** ** Expired and mistyped codes *)

Section ResetFailures.
Context `{platform : Platform}.

(** C6. Reset expiry: when the token of the lower-cased email expired before
    now, [verifyPasswordReset] is rejected with [ResetExpired] and has
    deleted the tokens of that email; accounts and user are untouched, and
    any later call for the email is rejected with [ResetNotFound]. *)
Theorem reset_expiry now email otp newPassword st token expiry :
  List.find (forEmail (toLowerCase email)) (getResetTokens st) = Some token ->
  Date_getTime (PasswordResetToken.expiresAt token) = Some expiry ->
  expiry < now ->
  exists st',
    verifyPasswordReset now email otp newPassword st = (Rejected ResetExpired, st')
    /\ getResetTokens st'
       = List.filter (otherEmail (toLowerCase email)) (getResetTokens st)
    /\ List.find (forEmail (toLowerCase email)) (getResetTokens st') = None
    /\ getAccounts st' = getAccounts st
    /\ user st' = user st
    /\ forall now' otp' newPassword',
         exists st'', verifyPasswordReset now' email otp' newPassword' st'
                      = (Rejected ResetNotFound, st'').
Proof.
  intros Htok Htime Hpast.
  destruct (find_token_window _ _ _ Htok) as [ls Hw].
  assert (Hexp : isExpired now token = true).
  { unfold isExpired. rewrite Htime. now apply Z.ltb_lt. }
  rewrite verifyPasswordReset_unfold. cbv zeta. rewrite Htok, Hexp.
  eexists. split; [reflexivity |].
  assert (Htoks : getResetTokens
            (setError (Some (errorMessage ResetExpired))
               (persistResetTokens
                  (List.filter (otherEmail (toLowerCase email)) (getResetTokens st))
                  (setError None st)))
          = List.filter (otherEmail (toLowerCase email)) (getResetTokens st)).
  { autorewrite with store. simpl. now rewrite Hw. }
  assert (Hgone : List.find (forEmail (toLowerCase email))
                    (List.filter (otherEmail (toLowerCase email)) (getResetTokens st))
                  = None) by apply find_filter_negb.
  split; [exact Htoks |]. rewrite Htoks.
  split; [exact Hgone |].
  split; [now autorewrite with store |].
  split; [now autorewrite with store |].
  intros now' otp' newPassword'. eexists.
  apply verifyPasswordReset_not_found. now rewrite Htoks.
Qed.

(** C7. Wrong-code retry: with a live token for the lower-cased email and a
    code whose digest is not the stored one, [verifyPasswordReset] is
    rejected with [InvalidCode]; the whole of [localStorage] (accounts,
    session pointer, tokens) and the user are as before, and a following
    call with a code of the stored digest, made while the token is live,
    resolves and authenticates the account. *)
Theorem wrong_code_retry now email wrong newPassword st token wrongHash :
  List.find (forEmail (toLowerCase email)) (getResetTokens st) = Some token ->
  isExpired now token = false ->
  hashString wrong = Resolved wrongHash ->
  wrongHash <> PasswordResetToken.otpHash token ->
  exists st',
    verifyPasswordReset now email wrong newPassword st = (Rejected InvalidCode, st')
    /\ window st' = window st
    /\ user st' = user st
    /\ List.find (forEmail (toLowerCase email)) (getResetTokens st') = Some token
    /\ forall now2 otp account newHash,
         isExpired now2 token = false ->
         hashString otp = Resolved (PasswordResetToken.otpHash token) ->
         List.find (hasEmail (toLowerCase email)) (getAccounts st) = Some account ->
         hashString newPassword = Resolved newHash ->
         exists st'',
           verifyPasswordReset now2 email otp newPassword st' = (Resolved tt, st'')
           /\ isAuthenticated st'' = true.
Proof.
  intros Htok Hlive Hwrong Hne.
  rewrite verifyPasswordReset_unfold. cbv zeta. rewrite Htok, Hlive, Hwrong.
  destruct (String.eqb_spec wrongHash (PasswordResetToken.otpHash token)) as [Heq | _];
    [contradiction |].
  eexists. split; [reflexivity |].
  repeat split; [exact Htok |].
  intros now2 otp account newHash Hlive2 Hotp Hfind Hnew.
  destruct (find_findIndex _ _ _ Hfind) as (i & Hidx & _).
  destruct (verifyPasswordReset_resolved now2 email otp newPassword
              (failed InvalidCode st) token i newHash Htok Hlive2 Hotp Hidx Hnew)
    as (account' & _ & _ & Hrun).
  eexists. split; [exact Hrun |].
  unfold isAuthenticated, verified. now autorewrite with store.
Qed.

End ResetFailures.

(** ** Malformed stored data *)

Section Corruption.
Context `{platform : Platform}.

Lemma loadAccountForEmail_reads email st1 st2 :
  getAccounts st1 = getAccounts st2 ->
  loadAccountForEmail email st1 = loadAccountForEmail email st2.
Proof. intros Heq. unfold loadAccountForEmail. now rewrite Heq. Qed.

(** What an operation returns depends on the state only through the three
    reads of the store. *)
Lemma perform_reads (op : Operation) (st1 st2 : AuthState) :
  getAccounts st1 = getAccounts st2 ->
  getResetTokens st1 = getResetTokens st2 ->
  getSession st1 = getSession st2 ->
  fst (perform op st1) = fst (perform op st2).
Proof.
  intros Hacc Htok Hses.
  destruct op as [| | e pw | now e pw | | random now e | now e otp pw |];
    unfold perform, returning.
  - rewrite !initialiseSession_unfold, Hses, (loadAccountForEmail_reads _ st1 st2 Hacc).
    destruct (loadAccountForEmail _ _); reflexivity.
  - reflexivity.
  - rewrite !signIn_unfold, Hacc.
    destruct (List.find _ _); [destruct (hashString pw); [destruct (_ =? _)%string |] |];
      reflexivity.
  - rewrite !signUp_unfold, Hacc.
    destruct (List.existsb _ _); [| destruct (hashString pw)]; reflexivity.
  - reflexivity.
  - rewrite !requestPasswordReset_unfold, Hacc.
    destruct (List.find _ _); [destruct (hashString _) |]; reflexivity.
  - rewrite !verifyPasswordReset_unfold, Hacc, Htok. cbv zeta.
    destruct (List.find _ _) as [token |]; [| reflexivity].
    destruct (isExpired now token); [reflexivity |].
    destruct (hashString otp) as [provided | err]; [| reflexivity].
    destruct (provided =? _)%string; [| reflexivity].
    destruct (findIndex _ _) as [i |]; [| reflexivity].
    destruct (hashString pw) as [h | err]; [| reflexivity].
    destruct (alter _ _ _ !! i); reflexivity.
  - rewrite !refreshSession_unfold, Hses, (loadAccountForEmail_reads _ st1 st2 Hacc).
    destruct (loadAccountForEmail _ _); reflexivity.
Qed.

Lemma getAccounts_malformed st :
  malformed StoredAccount.t (rawValue ACCOUNTS_KEY st) -> getAccounts st = [].
Proof.
  unfold malformed, rawValue, getAccounts.
  destruct (window st) as [ls |]; [| reflexivity].
  destruct (ls !! ACCOUNTS_KEY) as [raw |]; [| reflexivity].
  intros [-> | ->]; now destruct (raw =? "")%string.
Qed.

Lemma getResetTokens_malformed st :
  malformed PasswordResetToken.t (rawValue RESET_KEY st) -> getResetTokens st = [].
Proof.
  unfold malformed, rawValue, getResetTokens.
  destruct (window st) as [ls |]; [| reflexivity].
  destruct (ls !! RESET_KEY) as [raw |]; [| reflexivity].
  intros [-> | ->]; now destruct (raw =? "")%string.
Qed.

Lemma getAccounts_without_accounts st : getAccounts (without ACCOUNTS_KEY st) = [].
Proof.
  unfold getAccounts, without. destruct (window st) as [ls |] eqn:Hw; simpl.
  - now rewrite lookup_delete_eq.
  - now rewrite Hw.
Qed.

Lemma getResetTokens_without_tokens st : getResetTokens (without RESET_KEY st) = [].
Proof.
  unfold getResetTokens, without. destruct (window st) as [ls |] eqn:Hw; simpl.
  - now rewrite lookup_delete_eq.
  - now rewrite Hw.
Qed.

Lemma rawValue_without key key' st :
  key <> key' -> rawValue key' (without key st) = rawValue key' st.
Proof.
  intros Hne. unfold rawValue, without. destruct (window st) as [ls |] eqn:Hw; simpl.
  - now apply lookup_delete_ne.
  - now rewrite Hw.
Qed.

Lemma getSession_raw st : getSession st = rawValue SESSION_KEY st.
Proof. reflexivity. Qed.

Lemma getAccounts_raw st1 st2 :
  rawValue ACCOUNTS_KEY st1 = rawValue ACCOUNTS_KEY st2 ->
  is_Some (window st1) -> is_Some (window st2) ->
  getAccounts st1 = getAccounts st2.
Proof.
  unfold rawValue, getAccounts. intros Heq [ls1 H1] [ls2 H2].
  rewrite H1, H2 in *. now rewrite Heq.
Qed.

Lemma getResetTokens_raw st1 st2 :
  rawValue RESET_KEY st1 = rawValue RESET_KEY st2 ->
  is_Some (window st1) -> is_Some (window st2) ->
  getResetTokens st1 = getResetTokens st2.
Proof.
  unfold rawValue, getResetTokens. intros Heq [ls1 H1] [ls2 H2].
  rewrite H1, H2 in *. now rewrite Heq.
Qed.

Lemma without_reads key st :
  (key <> ACCOUNTS_KEY -> getAccounts (without key st) = getAccounts st)
  /\ (key <> RESET_KEY -> getResetTokens (without key st) = getResetTokens st)
  /\ (key <> SESSION_KEY -> getSession (without key st) = getSession st).
Proof.
  destruct (window st) as [ls |] eqn:Hw.
  - assert (Hw' : is_Some (window (without key st))).
    { unfold without. rewrite Hw. simpl. eauto. }
    assert (Hw'' : is_Some (window st)) by (rewrite Hw; eauto).
    repeat split; intros Hne.
    + apply getAccounts_raw; auto using rawValue_without.
    + apply getResetTokens_raw; auto using rawValue_without.
    + rewrite !getSession_raw. now apply rawValue_without.
  - unfold without. rewrite Hw. auto.
Qed.

(** C8. Corruption tolerance: when the text stored for the accounts (or for
    the reset tokens) is missing, is not valid JSON or is not an array, the
    read yields the empty collection, and every operation returns exactly
    what it returns when nothing is stored under that key: no rejection is
    caused by the malformed text. *)
Theorem malformed_store_tolerated st :
  (malformed StoredAccount.t (rawValue ACCOUNTS_KEY st) ->
   getAccounts st = []
   /\ forall op, fst (perform op st) = fst (perform op (without ACCOUNTS_KEY st)))
  /\ (malformed PasswordResetToken.t (rawValue RESET_KEY st) ->
      getResetTokens st = []
      /\ forall op, fst (perform op st) = fst (perform op (without RESET_KEY st))).
Proof.
  split; intros Hbad.
  - pose proof (getAccounts_malformed st Hbad) as Hnil.
    split; [exact Hnil |]. intros op.
    destruct (without_reads ACCOUNTS_KEY st) as (_ & Htok & Hses).
    apply perform_reads.
    + now rewrite getAccounts_without_accounts.
    + symmetry. apply Htok. discriminate.
    + symmetry. apply Hses. discriminate.
  - pose proof (getResetTokens_malformed st Hbad) as Hnil.
    split; [exact Hnil |]. intros op.
    destruct (without_reads RESET_KEY st) as (Hacc & _ & Hses).
    apply perform_reads.
    + symmetry. apply Hacc. discriminate.
    + now rewrite getResetTokens_without_tokens.
    + symmetry. apply Hses. discriminate.
Qed.

End Corruption.

(** ** The one-time code *)

Section Rounding.

Lemma pow2_pos (k : Z) : 0 <= k -> 0 < 2 ^ k.
Proof. intros. apply Z.pow_pos_nonneg; lia. Qed.

Lemma pow2_le (a b : Z) : 0 <= a <= b -> 2 ^ a <= 2 ^ b.
Proof. intros. apply Z.pow_le_mono_r; lia. Qed.

Lemma pow2_split (a b : Z) : 0 <= a <= b -> 2 ^ b = 2 ^ (b - a) * 2 ^ a.
Proof. intros. rewrite <- Z.pow_add_r by lia. f_equal. lia. Qed.

Lemma roundDouble_exact (n : Z) : 0 <= n < 2 ^ 53 -> roundDouble n = n.
Proof.
  intros [Hn Hlt]. unfold roundDouble.
  destruct (Z.leb_spec (Z.log2 n - 52) 0) as [_ | Hs]; [reflexivity |].
  exfalso. assert (Z.log2 n < 53) by (apply Z.log2_lt_pow2; lia || (destruct (Z.eq_dec n 0); subst; simpl in *; lia)).
  lia.
Qed.

(** The result of a rounding that does happen lies between the two
    neighbouring multiples of the unit in the last place. *)
Lemma roundDouble_between (n : Z) :
  52 < Z.log2 n ->
  let s := Z.log2 n - 52 in
  let q := n / 2 ^ s in
  (roundDouble n = q * 2 ^ s \/ roundDouble n = (q + 1) * 2 ^ s)
  /\ (2 * (n mod 2 ^ s) < 2 ^ s -> roundDouble n = q * 2 ^ s).
Proof.
  intros Hlog s q. unfold roundDouble. fold s. fold q.
  destruct (Z.leb_spec s 0) as [Hs | Hs]; [unfold s in Hs; lia |].
  split.
  - destruct (_ || _); auto.
  - intros Hhalf.
    assert (Hpow : 2 ^ s = 2 * 2 ^ (s - 1)).
    { replace s with (Z.succ (s - 1)) at 1 by lia. apply Z.pow_succ_r. lia. }
    destruct (Z.ltb_spec (2 ^ (s - 1)) (n mod 2 ^ s)); [lia |].
    destruct (Z.eqb_spec (n mod 2 ^ s) (2 ^ (s - 1))); [lia |].
    reflexivity.
Qed.

Lemma roundDouble_lower (c t n : Z) :
  0 <= c < 2 ^ 53 -> 0 <= t -> c * 2 ^ t <= n -> c * 2 ^ t <= roundDouble n.
Proof.
  intros Hc Ht Hle.
  destruct (Z.le_gt_cases (Z.log2 n) 52) as [Hsmall | Hbig].
  { unfold roundDouble. destruct (Z.leb_spec (Z.log2 n - 52) 0); [assumption | lia]. }
  pose proof (roundDouble_between n Hbig) as [Hcases _]. cbv zeta in Hcases.
  set (s := Z.log2 n - 52) in *. set (q := n / 2 ^ s) in *.
  assert (Hs : 0 < s) by (unfold s; lia).
  pose proof (pow2_pos s ltac:(lia)) as Hps.
  pose proof (pow2_pos t Ht) as Hpt.
  assert (Hn : 0 < n) by (destruct n; simpl in Hbig; lia).
  assert (Hq : c * 2 ^ t <= q * 2 ^ s).
  { destruct (Z.le_gt_cases s t) as [Hst | Hst].
    - rewrite (pow2_split s t) in * by lia.
      pose proof (pow2_pos (t - s) ltac:(lia)).
      assert (c * 2 ^ (t - s) <= q).
      { apply Z.div_le_lower_bound; [lia |]. lia. }
      rewrite Z.mul_assoc. apply Z.mul_le_mono_nonneg_r; lia.
    - assert (2 ^ 52 <= q).
      { apply Z.div_le_lower_bound; [lia |].
        pose proof (Z.log2_spec n Hn) as [Hlo _].
        rewrite (pow2_split s (Z.log2 n)) in Hlo by lia.
        replace (Z.log2 n - s) with 52 in Hlo by (unfold s; lia). lia. }
      rewrite (pow2_split t s) by lia.
      pose proof (pow2_pos (s - t - 1) ltac:(lia)).
      assert (2 ^ (s - t) = 2 * 2 ^ (s - t - 1)).
      { replace (s - t) with (Z.succ (s - t - 1)) at 1 by lia. apply Z.pow_succ_r. lia. }
      assert (c <= q * 2 ^ (s - t)) by nia.
      rewrite Z.mul_assoc. apply Z.mul_le_mono_nonneg_r; lia. }
  destruct Hcases as [-> | ->]; nia.
Qed.

Lemma roundDouble_upper (c t n : Z) :
  2 ^ 52 <= c < 2 ^ 53 -> 1 <= t -> 0 <= n ->
  2 * n < 2 * (c * 2 ^ t) + 2 ^ t ->
  roundDouble n <= c * 2 ^ t.
Proof.
  intros Hc Ht Hn Hlt.
  pose proof (pow2_pos t ltac:(lia)) as Hpt.
  assert (Hpt2 : 2 ^ t = 2 * 2 ^ (t - 1)).
  { replace t with (Z.succ (t - 1)) at 1 by lia. apply Z.pow_succ_r. lia. }
  destruct (Z.le_gt_cases (Z.log2 n) 52) as [Hsmall | Hbig].
  { unfold roundDouble. destruct (Z.leb_spec (Z.log2 n - 52) 0); [| lia].
    assert (n < 2 ^ 53).
    { destruct (Z.eq_dec n 0) as [-> | ]; [reflexivity |].
      apply Z.log2_lt_pow2; lia. }
    pose proof (pow2_pos (t - 1) ltac:(lia)). nia. }
  pose proof (roundDouble_between n Hbig) as [Hcases Hdown]. cbv zeta in Hcases, Hdown.
  set (s := Z.log2 n - 52) in *. set (q := n / 2 ^ s) in *.
  assert (Hs : 0 < s) by (unfold s; lia).
  pose proof (pow2_pos s ltac:(lia)) as Hps.
  assert (Hn' : 0 < n) by (destruct n; simpl in Hbig; lia).
  pose proof (Z.log2_spec n Hn') as [Hlo Hhi].
  assert (Hst : s <= t).
  { assert (n < 2 ^ (53 + t)).
    { rewrite Z.pow_add_r by lia. nia. }
    assert (Z.log2 n < 53 + t) by (apply Z.log2_lt_pow2; lia).
    unfold s. lia. }
  pose proof (Z.div_mod n (2 ^ s) ltac:(lia)) as Hdm. fold q in Hdm.
  pose proof (Z.mod_pos_bound n (2 ^ s) Hps) as Hr.
  destruct (Z.eq_dec s t) as [Heq | Hneq].
  - rewrite Heq in *.
    assert (q <= c) by nia.
    destruct (Z.eq_dec q c) as [Hqc | Hqc].
    + rewrite Hdown; [nia |]. nia.
    + destruct Hcases as [-> | ->]; nia.
  - assert (Hq : q + 1 <= 2 ^ 53).
    { assert (q < 2 ^ 53); [| lia].
      apply Z.div_lt_upper_bound; [lia |].
      replace (Z.succ (Z.log2 n)) with (s + 53) in Hhi by (unfold s; lia).
      rewrite Z.pow_add_r in Hhi by lia. lia. }
    rewrite (pow2_split s t) by lia.
    pose proof (pow2_pos (t - s - 1) ltac:(lia)).
    assert (2 ^ (t - s) = 2 * 2 ^ (t - s - 1)).
    { replace (t - s) with (Z.succ (t - s - 1)) at 1 by lia. apply Z.pow_succ_r. lia. }
    assert (q + 1 <= c * 2 ^ (t - s)) by nia.
    rewrite Z.mul_assoc.
    destruct Hcases as [-> | ->]; apply Z.mul_le_mono_nonneg_r; lia.
Qed.

End Rounding.

Section OneTimeCode.

Lemma otpNumber_range (random : Random) :
  Random_valid random -> 100000 <= otpNumber random <= 999999.
Proof.
  destruct random as [m e]. unfold Random_valid, otpNumber. cbn [significand scale].
  intros (Hm & Hme & He).
  pose proof (pow2_pos e ltac:(lia)) as HP.
  remember (2 ^ e) as P eqn:HPe.
  remember (roundDouble (m * 900000)) as Np eqn:HNp.
  remember (roundDouble (100000 * P + Np)) as Sp eqn:HSpe.
  assert (H53 : 2 ^ 53 = 9007199254740992) by reflexivity.
  assert (H52 : 2 ^ 52 = 4503599627370496) by reflexivity.
  assert (H33 : 2 ^ 33 = 8589934592) by reflexivity.
  assert (HNp0 : 0 <= Np).
  { subst Np. apply (roundDouble_lower 0 0); lia. }
  assert (HSp0 : 100000 * P <= Sp).
  { subst Sp. rewrite HPe at 1.
    apply (roundDouble_lower 100000 e); [lia | lia | rewrite <- HPe; lia]. }
  split.
  { apply Z.div_le_lower_bound; lia. }
  assert (HSp : Sp < 1000000 * P); [| apply Z.lt_succ_r, Z.div_lt_upper_bound; lia].
  destruct (Z.le_gt_cases e 33) as [Hsmall | Hbig].
  - assert (P <= 2 ^ 33) by (rewrite HPe; apply pow2_le; lia).
    assert (HN : Np = m * 900000) by (subst Np; apply roundDouble_exact; lia).
    subst Sp. rewrite HN, roundDouble_exact; lia.
  - set (t := e - 33).
    assert (HPt : P = 2 ^ 33 * 2 ^ t).
    { subst P. unfold t. rewrite <- Z.pow_add_r by lia. f_equal. lia. }
    pose proof (pow2_pos t ltac:(unfold t; lia)) as Ht.
    assert (Ht2 : 2 ^ t = 2 * 2 ^ (t - 1)).
    { replace t with (Z.succ (t - 1)) at 1 by lia. apply Z.pow_succ_r. unfold t. lia. }
    pose proof (pow2_pos (t - 1) ltac:(unfold t; lia)) as Ht1.
    assert (HN : Np <= (900000 * 2 ^ 33 - 1) * 2 ^ t).
    { subst Np. apply roundDouble_upper; [lia | unfold t; lia | lia |].
      destruct (Z.le_gt_cases e 53) as [He53 | He53].
      - assert (2 ^ (t - 1) <= 2 ^ 19) by (apply pow2_le; unfold t; lia).
        assert (2 ^ 19 = 524288) by reflexivity.
        nia.
      - assert (HK : 2 ^ t = 2 ^ 20 * 2 ^ (t - 20)).
        { rewrite <- Z.pow_add_r by (unfold t; lia). f_equal. lia. }
        assert (2 <= 2 ^ (t - 20)).
        { change 2 with (2 ^ 1) at 1. apply pow2_le. unfold t. lia. }
        assert (2 ^ 20 = 1048576) by reflexivity.
        nia. }
    assert (HS : Sp <= (1000000 * 2 ^ 33 - 1) * 2 ^ t).
    { subst Sp. apply roundDouble_upper; [lia | unfold t; lia | lia | nia]. }
    nia.
Qed.


Lemma digitChar_isDigit (d : Z) : 0 <= d <= 9 -> isDigit (digitChar d) = true.
Proof.
  intros Hd. unfold isDigit, digitChar.
  rewrite N_ascii_embedding by lia.
  apply andb_true_iff. split; apply N.leb_le; lia.
Qed.

Lemma decimalDigits_step (fuel : nat) (n : Z) (acc : string) :
  decimalDigits (S fuel) n acc
  = if n <? 10 then String (digitChar (n mod 10)) acc
    else decimalDigits fuel (n / 10) (String (digitChar (n mod 10)) acc).
Proof. reflexivity. Qed.

(** The decimal numeral of a number of six digits. *)
Lemma Number_toString_six (n : Z) :
  100000 <= n <= 999999 ->
  Number_toString n
  = String (digitChar (n / 10 / 10 / 10 / 10 / 10 mod 10))
      (String (digitChar (n / 10 / 10 / 10 / 10 mod 10))
         (String (digitChar (n / 10 / 10 / 10 mod 10))
            (String (digitChar (n / 10 / 10 mod 10))
               (String (digitChar (n / 10 mod 10))
                  (String (digitChar (n mod 10)) ""))))).
Proof.
  intros Hn. unfold Number_toString.
  destruct (Z.ltb_spec n 0) as [Hneg | _]; [lia |].
  assert (Hlog : 16 <= Z.log2 n).
  { apply Z.log2_le_pow2; [lia |]. change (2 ^ 16) with 65536. lia. }
  destruct (Z.to_nat (Z.log2 n)) as [| [| [| [| [| fuel]]]]] eqn:Hfuel; try lia.
  assert (H1 : 10000 <= n / 10 <= 99999).
  { split; [apply Z.div_le_lower_bound | apply Z.lt_succ_r, Z.div_lt_upper_bound]; lia. }
  assert (H2 : 1000 <= n / 10 / 10 <= 9999).
  { split; [apply Z.div_le_lower_bound | apply Z.lt_succ_r, Z.div_lt_upper_bound]; lia. }
  assert (H3 : 100 <= n / 10 / 10 / 10 <= 999).
  { split; [apply Z.div_le_lower_bound | apply Z.lt_succ_r, Z.div_lt_upper_bound]; lia. }
  assert (H4 : 10 <= n / 10 / 10 / 10 / 10 <= 99).
  { split; [apply Z.div_le_lower_bound | apply Z.lt_succ_r, Z.div_lt_upper_bound]; lia. }
  assert (H5 : 1 <= n / 10 / 10 / 10 / 10 / 10 <= 9).
  { split; [apply Z.div_le_lower_bound | apply Z.lt_succ_r, Z.div_lt_upper_bound]; lia. }
  rewrite !decimalDigits_step.
  repeat match goal with
         | |- context [?x <? 10] =>
             destruct (Z.ltb_spec x 10); [try lia | try lia]
         end.
  reflexivity.
Qed.

Lemma generateOtp_digits (random : Random) :
  Random_valid random ->
  String.length (generateOtp random) = 6%nat
  /\ forallb isDigit (list_ascii_of_string (generateOtp random)) = true
  /\ forallb isAscii (list_ascii_of_string (generateOtp random)) = true.
Proof.
  intros Hvalid. pose proof (otpNumber_range random Hvalid) as Hrange.
  unfold generateOtp. rewrite (Number_toString_six _ Hrange).
  split; [reflexivity |].
  assert (Hd : forall x, isDigit (digitChar (x mod 10)) = true).
  { intros x. apply digitChar_isDigit. pose proof (Z.mod_pos_bound x 10). lia. }
  assert (Ha : forall x, isAscii (digitChar (x mod 10)) = true).
  { intros x. unfold isAscii, digitChar. pose proof (Z.mod_pos_bound x 10).
    rewrite N_ascii_embedding by lia. apply N.ltb_lt. lia. }
  cbn [list_ascii_of_string forallb]. rewrite !Hd, !Ha. auto.
Qed.


End OneTimeCode.

(** ** Requesting a reset *)

Section Request.
Context `{platform : Platform}.


Lemma filter_forEmail_issued (n : string) (l : list PasswordResetToken.t)
    (issued : PasswordResetToken.t) :
  PasswordResetToken.email issued = n ->
  List.filter (forEmail n) (List.filter (otherEmail n) l ++ [issued]) = [issued].
Proof.
  intros Hn. rewrite List.filter_app. simpl.
  replace (forEmail n issued) with true by (symmetry; now apply forEmail_eq).
  replace (List.filter (forEmail n) (List.filter (otherEmail n) l)) with (@nil PasswordResetToken.t);
    [reflexivity |].
  induction l as [| t l IH]; simpl; [reflexivity |].
  unfold otherEmail at 1. destruct (forEmail n t) eqn:Ht; simpl; [exact IH |].
  now rewrite Ht.
Qed.





End Request.

(** ** The statements on the concrete browser *)

Section Instances.
Import SampleBrowser.

Lemma credential_round_trip_witness :
  (exists st2, signIn "a@B.COM" "p" registered = (Resolved tt, st2)
               /\ isAuthenticated st2 = true)
  /\ (exists st3, signIn "A@b.com" "px" registered = (Rejected InvalidCredential, st3)).
Proof.
  destruct (credential_round_trip 0 "A@b.com" "a@B.COM" "p" fresh registered)
    as [(st2 & Hin & _ & Hauth) Hwrong].
  - eexists. reflexivity.
  - vm_compute. reflexivity.
  - reflexivity.
  - split; [eauto |].
    apply Hwrong. exists "cA==", "cHg=". repeat split. discriminate.
Defined.

Lemma account_uniqueness_witness :
  window fresh = Some ∅
  /\ exists st', signUp 1 "a@B.COM" "q" registered = (Rejected DuplicateAccount, st')
                 /\ getAccounts st' = getAccounts registered.
Proof.
  split; [reflexivity |].
  destruct (account_uniqueness [SignUp 0 "A@b.com" "p"] fresh eq_refl) as [_ Hdup].
  apply (Hdup 1 "a@B.COM" "q"
           {| StoredAccount.email := "a@b.com"; StoredAccount.passwordHash := "cA==";
              StoredAccount.createdAt := "1970-01-01T00:00:00.000Z" |}).
  - vm_compute. apply list_elem_of_here.
  - reflexivity.
Defined.

Lemma verifyPasswordReset_success_witness :
  exists st', verifyPasswordReset 1 "A@B.com" "550000" "new" requested = (Resolved tt, st')
              /\ getSession st' = Some "a@b.com"
              /\ isAuthenticated st' = true.
Proof.
  destruct (verifyPasswordReset_success 1 "A@B.com" "550000" "new" requested
              {| PasswordResetToken.email := "a@b.com";
                 PasswordResetToken.otpHash := "NTUwMDAw";
                 PasswordResetToken.expiresAt := "1970-01-01T00:10:00.000Z" |}
              {| StoredAccount.email := "a@b.com"; StoredAccount.passwordHash := "cA==";
                 StoredAccount.createdAt := "1970-01-01T00:00:00.000Z" |}
              "bmV3")
    as (i & st' & _ & Hrun & _ & _ & _ & _ & _ & _ & Hauth & Hses & _).
  - vm_compute. reflexivity.
  - vm_compute. reflexivity.
  - vm_compute. reflexivity.
  - vm_compute. reflexivity.
  - vm_compute. reflexivity.
  - exists st'. auto.
Defined.

(** C3, as the claim has it, fails for the account whose email is the empty
    string: every premise holds, the call resolves and authenticates, and
    the session pointer is absent afterwards. *)
Lemma verifyPasswordReset_session_counterexample :
  let token := {| PasswordResetToken.email := "";
                  PasswordResetToken.otpHash := "NTUwMDAw";
                  PasswordResetToken.expiresAt := "1970-01-01T00:10:00.000Z" |} in
  let account := {| StoredAccount.email := "";
                    StoredAccount.passwordHash := "cHc=";
                    StoredAccount.createdAt := "1970-01-01T00:00:00.000Z" |} in
  let outcome := verifyPasswordReset 1 "" "550000" "new" requestedEmpty in
  List.find (forEmail (toLowerCase "")) (getResetTokens requestedEmpty) = Some token
  /\ isExpired 1 token = false
  /\ hashString "550000" = Resolved (PasswordResetToken.otpHash token)
  /\ getAccounts requestedEmpty = [account]
  /\ fst outcome = Resolved tt
  /\ isAuthenticated (snd outcome) = true
  /\ getSession (snd outcome) = None
  /\ getSession (snd outcome) <> Some (StoredAccount.email account).
Proof.
  cbv zeta. repeat split; try (vm_compute; reflexivity).
  vm_compute. discriminate.
Qed.

Lemma session_self_heal_witness :
  exists st', refreshSession dangling = (Resolved false, st')
              /\ getSession st' = None /\ isAuthenticated st' = false.
Proof.
  destruct (session_self_heal dangling "ghost@b.com") as [(st' & Hrun & Hses & _ & Hauth) _].
  - vm_compute. reflexivity.
  - intros a Ha. vm_compute in Ha. inversion Ha.
  - exists st'. auto.
Defined.



Lemma reset_expiry_witness :
  exists st', verifyPasswordReset 600001 "a@b.com" "550000" "new" requested
              = (Rejected ResetExpired, st')
              /\ getResetTokens st' = [].
Proof.
  destruct (reset_expiry 600001 "a@b.com" "550000" "new" requested
              {| PasswordResetToken.email := "a@b.com";
                 PasswordResetToken.otpHash := "NTUwMDAw";
                 PasswordResetToken.expiresAt := "1970-01-01T00:10:00.000Z" |}
              600000)
    as (st' & Hrun & Htoks & _).
  - vm_compute. reflexivity.
  - vm_compute. reflexivity.
  - lia.
  - exists st'. split; [exact Hrun |]. rewrite Htoks. vm_compute. reflexivity.
Defined.

Lemma wrong_code_retry_witness :
  exists st' st'',
    verifyPasswordReset 1 "a@b.com" "123456" "new" requested = (Rejected InvalidCode, st')
    /\ window st' = window requested
    /\ verifyPasswordReset 2 "a@b.com" "550000" "new" st' = (Resolved tt, st'').
Proof.
  destruct (wrong_code_retry 1 "a@b.com" "123456" "new" requested
              {| PasswordResetToken.email := "a@b.com";
                 PasswordResetToken.otpHash := "NTUwMDAw";
                 PasswordResetToken.expiresAt := "1970-01-01T00:10:00.000Z" |}
              "MTIzNDU2")
    as (st' & Hrun & Hwin & _ & _ & Hretry).
  - vm_compute. reflexivity.
  - vm_compute. reflexivity.
  - vm_compute. reflexivity.
  - discriminate.
  - destruct (Hretry 2 "550000"
                {| StoredAccount.email := "a@b.com"; StoredAccount.passwordHash := "cA==";
                   StoredAccount.createdAt := "1970-01-01T00:00:00.000Z" |} "bmV3")
      as (st'' & Hrun2 & _).
    + vm_compute. reflexivity.
    + vm_compute. reflexivity.
    + vm_compute. reflexivity.
    + vm_compute. reflexivity.
    + exists st', st''. auto.
Defined.

Lemma malformed_store_tolerated_witness :
  getAccounts garbled = []
  /\ fst (perform (SignIn "a@b.com" "p") garbled)
     = fst (perform (SignIn "a@b.com" "p") (without ACCOUNTS_KEY garbled)).
Proof.
  destruct (malformed_store_tolerated garbled) as [Haccounts _].
  destruct Haccounts as [Hnil Hsame].
  - vm_compute. left. reflexivity.
  - split; [exact Hnil | apply Hsame].
Defined.

Lemma empty_credentials_accepted_witness :
  exists st1 st2, signUp 0 "" "" fresh = (Resolved tt, st1)
                  /\ isAuthenticated st1 = true
                  /\ signIn "" "" st1 = (Resolved tt, st2).
Proof.
  destruct (empty_credentials_accepted 0 fresh eq_refl)
    as (h & st1 & st2 & Hup & _ & _ & Hauth & Hin & _).
  exists st1, st2. auto.
Defined.

End Instances.

(** * Further properties of the context *)

(** ** Every operation, branch by branch *)

Ltac break_match :=
  match goal with
  | |- context [match ?x with _ => _ end] =>
      lazymatch x with
      | context [match _ with _ => _ end] => fail
      | _ => destruct x eqn:?
      end
  end.

Section Branches.
Context `{platform : Platform}.

Lemma error_persistAccounts accounts st : error (persistAccounts accounts st) = error st.
Proof. unfold persistAccounts. now destruct (window st). Qed.

Lemma error_persistResetTokens tokens st : error (persistResetTokens tokens st) = error st.
Proof. unfold persistResetTokens. now destruct (window st). Qed.

Lemma error_persistSession email st : error (persistSession email st) = error st.
Proof.
  unfold persistSession. destruct (window st); [| reflexivity].
  destruct email as [e |]; [destruct (e =? "")%string |]; reflexivity.
Qed.

Lemma rawValue_persistAccounts key accounts st :
  key <> ACCOUNTS_KEY -> rawValue key (persistAccounts accounts st) = rawValue key st.
Proof.
  intros Hne. unfold rawValue, persistAccounts. destruct (window st) as [ls |] eqn:Hw; simpl.
  - now apply lookup_insert_ne.
  - now rewrite Hw.
Qed.

Lemma rawValue_persistResetTokens key tokens st :
  key <> RESET_KEY -> rawValue key (persistResetTokens tokens st) = rawValue key st.
Proof.
  intros Hne. unfold rawValue, persistResetTokens. destruct (window st) as [ls |] eqn:Hw; simpl.
  - now apply lookup_insert_ne.
  - now rewrite Hw.
Qed.

Lemma rawValue_persistSession key email st :
  key <> SESSION_KEY -> rawValue key (persistSession email st) = rawValue key st.
Proof.
  intros Hne. unfold rawValue, persistSession. destruct (window st) as [ls |] eqn:Hw; simpl.
  - destruct email as [e |]; [destruct (e =? "")%string |]; simpl;
      rewrite ?lookup_delete_ne, ?lookup_insert_ne by congruence; reflexivity.
  - now rewrite Hw.
Qed.

Lemma authKey_false key :
  authKey key = false -> key <> ACCOUNTS_KEY /\ key <> SESSION_KEY /\ key <> RESET_KEY.
Proof.
  unfold authKey. intros H.
  apply orb_false_iff in H as [H H3]. apply orb_false_iff in H as [H1 H2].
  apply String.eqb_neq in H1, H2, H3. auto.
Qed.

(** The index [findIndex] returns is inside the array, also after the
    element there is replaced. *)
Lemma alter_found {A} (p : A -> bool) (f : A -> A) (l : list A) (i : nat) :
  findIndex p l = Some i -> is_Some (alter f i l !! i).
Proof.
  intros Hi. destruct (findIndex_lookup p l i Hi) as (x & Hx & _).
  rewrite list_lookup_alter_eq, Hx. simpl. eauto.
Qed.

(** X1. The error cell after an operation wrapped in [runAuthAction] tells
    how that operation ended: empty when it resolved, the message of what was
    thrown when it was rejected. An error of an earlier operation never
    survives. *)
Theorem error_cell_reflects_outcome (op : Operation) (st : AuthState) :
  wrapped op = true ->
  error (snd (perform op st))
  = match fst (perform op st) with
    | Resolved _ => None
    | Rejected err => Some (errorMessage err)
    end.
Proof.
  intros Hop.
  destruct op as [| | e pw | now e pw | | random now e | now e otp pw |];
    try discriminate; unfold perform, returning.
  - rewrite signIn_unfold. repeat (cbn [fst snd]; break_match); cbn [fst snd]; simpl;
      rewrite ?error_persistSession; reflexivity.
  - rewrite signUp_unfold. repeat (cbn [fst snd]; break_match); cbn [fst snd]; simpl;
      rewrite ?error_persistSession; simpl; rewrite ?error_persistAccounts; reflexivity.
  - rewrite signOut_unfold. simpl. now rewrite error_persistSession.
  - rewrite requestPasswordReset_unfold. repeat (cbn [fst snd]; break_match); cbn [fst snd]; simpl;
      rewrite ?error_persistResetTokens; reflexivity.
  - rewrite verifyPasswordReset_unfold. cbv zeta. repeat (cbn [fst snd]; break_match); cbn [fst snd]; simpl;
      rewrite ?error_persistSession; simpl;
      rewrite ?error_persistResetTokens, ?error_persistAccounts; reflexivity.
  - rewrite refreshSession_unfold. repeat (cbn [fst snd]; break_match); cbn [fst snd]; simpl;
      rewrite ?error_persistSession; reflexivity.
Qed.

End Branches.

Section Frames.
Context `{platform : Platform}.

Lemma rawValue_setUser key u st : rawValue key (setUser u st) = rawValue key st.
Proof. reflexivity. Qed.
Lemma rawValue_setError key e st : rawValue key (setError e st) = rawValue key st.
Proof. reflexivity. Qed.
Lemma rawValue_setLoading key b st : rawValue key (setLoading b st) = rawValue key st.
Proof. reflexivity. Qed.

Lemma perform_other_keys (op : Operation) (st : AuthState) (key : string) :
  authKey key = false ->
  rawValue key (snd (perform op st)) = rawValue key st.
Proof.
  intros Hkey. destruct (authKey_false key Hkey) as (Ha & Hs & Hr).
  destruct op as [| | e pw | now e pw | | random now e | now e otp pw |];
    unfold perform, returning;
    rewrite ?initialiseSession_unfold, ?signIn_unfold, ?signUp_unfold, ?signOut_unfold,
      ?requestPasswordReset_unfold, ?verifyPasswordReset_unfold, ?refreshSession_unfold;
    unfold modify, clearError;
    cbv zeta; repeat (cbn [fst snd]; break_match); cbn [fst snd];
    unfold failed;
    repeat first
      [ rewrite rawValue_persistSession by assumption
      | rewrite rawValue_persistResetTokens by assumption
      | rewrite rawValue_persistAccounts by assumption
      | rewrite rawValue_setUser
      | rewrite rawValue_setError
      | rewrite rawValue_setLoading ];
    reflexivity.
Qed.

(** X2. The operations write under the three keys of the context and
    nowhere else: whatever else [localStorage] holds, the chat sessions of
    the other modules included, is after any sequence of operations what it
    was before. *)
Theorem only_auth_keys_written (ops : list Operation) (st : AuthState) (key : string) :
  authKey key = false ->
  rawValue key (runOperations ops st) = rawValue key st.
Proof.
  intros Hkey. revert st. induction ops as [| op ops IH]; intros st; [reflexivity |].
  simpl. change (rawValue key (runOperations ops (snd (perform op st))) = rawValue key st).
  rewrite IH. now apply perform_other_keys.
Qed.

(** X7. A rejected operation leaves the user, the accounts and the session
    pointer as they were, and [localStorage] as a whole too, with one
    exception: [verifyPasswordReset] finding an expired token, which deletes
    the tokens of that email before it rejects. *)
Theorem rejected_operation_changes_nothing (op : Operation) (st : AuthState) (err : Exn) :
  fst (perform op st) = Rejected err ->
  user (snd (perform op st)) = user st
  /\ getAccounts (snd (perform op st)) = getAccounts st
  /\ getSession (snd (perform op st)) = getSession st
  /\ (window (snd (perform op st)) = window st
      \/ exists now email otp newPassword token,
           op = VerifyPasswordReset now email otp newPassword
           /\ List.find (forEmail (toLowerCase email)) (getResetTokens st) = Some token
           /\ isExpired now token = true
           /\ window (snd (perform op st))
              = window (persistResetTokens
                          (List.filter (otherEmail (toLowerCase email)) (getResetTokens st))
                          st)).
Proof.
  destruct op as [| | e pw | now e pw | | random now e | now e otp pw |];
    unfold perform, returning.
  - rewrite initialiseSession_unfold. repeat (cbn [fst snd]; break_match); discriminate.
  - discriminate.
  - rewrite signIn_unfold. repeat (cbn [fst snd]; break_match); cbn [fst snd];
      try discriminate; intros _; auto.
  - rewrite signUp_unfold. repeat (cbn [fst snd]; break_match); cbn [fst snd];
      try discriminate; intros _; auto.
  - discriminate.
  - rewrite requestPasswordReset_unfold. repeat (cbn [fst snd]; break_match); cbn [fst snd];
      try discriminate; intros _; auto.
  - rewrite verifyPasswordReset_unfold. cbv zeta.
    destruct (List.find _ _) as [token |] eqn:Htok; [| cbn [fst snd]; intros _; auto].
    destruct (isExpired now token) eqn:Hexp.
    { cbn [fst snd]. intros _. autorewrite with store.
      split; [reflexivity |]. split; [reflexivity |]. split; [reflexivity |].
      right. exists now, e, otp, pw, token. repeat split; auto.
      unfold persistResetTokens. simpl. now destruct (window st). }
    destruct (hashString otp) as [provided | err1]; [| cbn [fst snd]; intros _; auto].
    destruct (provided =? _)%string; [| cbn [fst snd]; intros _; auto].
    destruct (findIndex _ _) as [i |] eqn:Hidx; [| cbn [fst snd]; intros _; auto].
    destruct (hashString pw) as [h | err2]; [| cbn [fst snd]; intros _; auto].
    destruct (alter_found _ (withPasswordHash h) _ _ Hidx) as [updated Hupd].
    rewrite Hupd. discriminate.
  - rewrite refreshSession_unfold. repeat (cbn [fst snd]; break_match); discriminate.
Qed.

End Frames.

(** ** What the store keeps *)

Section Kept.
Context `{platform : Platform}.

Lemma accountsStep_keeps (l l' : list StoredAccount.t) :
  accountsStep l l' ->
  forall i a, l !! i = Some a ->
    exists a', l' !! i = Some a'
               /\ StoredAccount.email a' = StoredAccount.email a
               /\ StoredAccount.createdAt a' = StoredAccount.createdAt a.
Proof.
  intros Hstep i a Ha. destruct Hstep as [| b _ _ | j h].
  - eauto.
  - exists a. split; [| auto]. now apply lookup_app_l_Some.
  - destruct (decide (j = i)) as [-> | Hne].
    + exists (withPasswordHash h a). rewrite list_lookup_alter_eq, Ha. auto.
    + exists a. rewrite list_lookup_alter_ne by assumption. auto.
Qed.

Lemma perform_keeps_account (op : Operation) (st : AuthState) (i : nat) (a : StoredAccount.t) :
  isVerify op = false ->
  getAccounts st !! i = Some a -> getAccounts (snd (perform op st)) !! i = Some a.
Proof.
  intros Hop Ha.
  assert (Hw : is_Some (window st)).
  { apply getAccounts_window. intros Hnil. rewrite Hnil in Ha. discriminate. }
  destruct Hw as [ls Hw].
  destruct op as [| | e pw | now e pw | | random now e | now e otp pw |];
    try discriminate; unfold perform, returning;
    rewrite ?initialiseSession_unfold, ?signIn_unfold, ?signUp_unfold, ?signOut_unfold,
      ?requestPasswordReset_unfold, ?refreshSession_unfold;
    unfold modify, clearError, failed;
    repeat (cbn [fst snd]; break_match); cbn [fst snd];
    autorewrite with store; simpl; rewrite ?Hw; try assumption.
  now apply lookup_app_l_Some.
Qed.

(** X3. Accounts are never deleted, moved or renamed: whatever operations
    follow, the account stored at a position stays at that position with its
    email and its creation time; its digest too, as long as no password
    reset is verified. *)
Theorem accounts_never_deleted (ops : list Operation) (st : AuthState)
    (i : nat) (a : StoredAccount.t) :
  getAccounts st !! i = Some a ->
  (exists a', getAccounts (runOperations ops st) !! i = Some a'
              /\ StoredAccount.email a' = StoredAccount.email a
              /\ StoredAccount.createdAt a' = StoredAccount.createdAt a)
  /\ (forallb (fun op => negb (isVerify op)) ops = true ->
      getAccounts (runOperations ops st) !! i = Some a).
Proof.
  revert st a. induction ops as [| op ops IH]; intros st a Ha.
  - split; eauto.
  - destruct (accountsStep_keeps _ _ (perform_accounts op st) i a Ha)
      as (a1 & Ha1 & Hemail & Hcreated).
    split.
    + destruct (IH _ _ Ha1) as [(a' & Ha' & He & Hc) _].
      exists a'. split; [exact Ha' |]. split; congruence.
    + simpl. intros Hnone. apply andb_true_iff in Hnone as [Hop Hrest].
      apply negb_true_iff in Hop.
      apply (IH (snd (perform op st)) a); [| exact Hrest].
      now apply perform_keeps_account.
Qed.

Lemma accountsStep_emails (l l' : list StoredAccount.t) (a : StoredAccount.t) :
  accountsStep l l' -> a ∈ l ->
  exists a', a' ∈ l' /\ StoredAccount.email a' = StoredAccount.email a.
Proof.
  intros Hstep Ha. apply list_elem_of_lookup in Ha as [i Hi].
  destruct (accountsStep_keeps _ _ Hstep i a Hi) as (a' & Ha' & He & _).
  exists a'. split; [| exact He]. apply list_elem_of_lookup. eauto.
Qed.

Lemma elem_of_filter_list {A} (p : A -> bool) (l : list A) (x : A) :
  x ∈ List.filter p l -> x ∈ l.
Proof.
  intros H. apply list_elem_of_In in H. apply List.filter_In in H as [H _].
  now apply list_elem_of_In.
Qed.

Lemma find_Some_elem {A} (p : A -> bool) (l : list A) (x : A) :
  List.find p l = Some x -> x ∈ l /\ p x = true.
Proof.
  intros H. apply List.find_some in H as [Hin Hp].
  split; [now apply list_elem_of_In | exact Hp].
Qed.

(** Only a request adds a token. *)
Lemma perform_tokens_subset (op : Operation) (st : AuthState) (t : PasswordResetToken.t) :
  isRequest op = false ->
  t ∈ getResetTokens (snd (perform op st)) -> t ∈ getResetTokens st.
Proof.
  intros Hop.
  destruct op as [| | e pw | now e pw | | random now e | now e otp pw |];
    try discriminate; unfold perform, returning;
    rewrite ?initialiseSession_unfold, ?signIn_unfold, ?signUp_unfold, ?signOut_unfold,
      ?verifyPasswordReset_unfold, ?refreshSession_unfold;
    unfold modify, clearError, failed; cbv zeta;
    repeat (cbn [fst snd]; break_match); cbn [fst snd];
    autorewrite with store; simpl; try (intros H; exact H);
    unfold persistAccounts; simpl;
    destruct (window st) eqn:Hw; simpl; rewrite ?Hw;
    try (intros H; now apply elem_of_filter_list in H);
    intros H; inversion H.
Qed.

Lemma perform_tokensOwned (op : Operation) (st : AuthState) :
  tokensOwned st -> tokensOwned (snd (perform op st)).
Proof.
  intros Howned t Ht.
  destruct (isRequest op) eqn:Hop.
  - destruct op as [| | | | | random now e | |]; try discriminate.
    revert Ht. unfold perform, returning. rewrite requestPasswordReset_unfold.
    destruct (List.find _ _) as [existing |] eqn:Hfind; [| cbn [fst snd]; apply Howned].
    destruct (hashString _) as [h | err]; [| cbn [fst snd]; apply Howned].
    cbn [fst snd]. autorewrite with store. simpl.
    destruct (window st) eqn:Hw; [| intros H; inversion H].
    intros Ht. apply elem_of_app in Ht as [Ht | Ht].
    + apply Howned. now apply elem_of_filter_list in Ht.
    + apply list_elem_of_singleton in Ht. subst t. simpl.
      exists existing. apply find_Some_elem in Hfind as [Hin Hp].
      split; [exact Hin | now apply hasEmail_eq].
  - pose proof (perform_tokens_subset op st t Hop Ht) as Hold.
    destruct (Howned t Hold) as (a & Ha & He).
    destruct (accountsStep_emails _ _ a (perform_accounts op st) Ha) as (a' & Ha' & He').
    exists a'. split; [exact Ha' | congruence].
Qed.

End Kept.

(** ** The session and the user *)

Section SessionInvariant.
Context `{platform : Platform}.

Lemma tokens_belong_step (ops : list Operation) (st : AuthState) :
  tokensOwned st -> tokensOwned (runOperations ops st).
Proof.
  revert st. induction ops as [| op ops IH]; intros st Hst; [exact Hst |].
  apply IH, perform_tokensOwned, Hst.
Qed.

(** X12. From the empty store on, every reset token is for the email of a
    stored account: when [verifyPasswordReset] finds a token, the account it
    then looks up is there. *)
Theorem tokens_belong_to_accounts (ops : list Operation) (st0 : AuthState) :
  window st0 = Some ∅ ->
  let st := runOperations ops st0 in
  tokensOwned st
  /\ forall n token,
       List.find (forEmail n) (getResetTokens st) = Some token ->
       exists i account,
         findIndex (hasEmail n) (getAccounts st) = Some i
         /\ getAccounts st !! i = Some account.
Proof.
  intros Hw st.
  assert (Howned : tokensOwned st).
  { apply tokens_belong_step. intros t Ht.
    rewrite (getResetTokens_empty st0 Hw) in Ht. inversion Ht. }
  split; [exact Howned |].
  intros n token Hfind. apply find_Some_elem in Hfind as [Hin Hp].
  apply forEmail_eq in Hp.
  destruct (Howned token Hin) as (a & Ha & He).
  destruct (List.find (hasEmail n) (getAccounts st)) as [account |] eqn:Hacc.
  - destruct (find_findIndex _ _ _ Hacc) as (i & Hi & Hlook). eauto.
  - exfalso. pose proof (proj1 (find_None_forall _ _) Hacc a Ha) as Hno.
    apply not_true_iff_false in Hno. apply Hno. apply hasEmail_eq. congruence.
Qed.

Lemma find_alter {A} (p : A -> bool) (f : A -> A) (l : list A) (i : nat) :
  (forall x, p (f x) = p x) ->
  findIndex p l = Some i ->
  List.find p (alter f i l) = option_map f (List.find p l).
Proof.
  intros Hpf. revert i. induction l as [| x l IH]; intros i; simpl; [discriminate |].
  destruct (p x) eqn:Hp.
  - intros [= <-]. simpl. now rewrite Hpf, Hp.
  - destruct (findIndex p l) as [j |]; simpl; [| discriminate].
    intros [= <-]. simpl. rewrite Hp. now apply IH.
Qed.

Lemma find_normalized (n : string) (st : AuthState) (a : StoredAccount.t) :
  uniqueAccounts st ->
  List.find (hasEmail n) (getAccounts st) = Some a ->
  StoredAccount.email a = n /\ toLowerCase n = n.
Proof.
  intros [_ Hnorm] Hfind. apply find_Some_elem in Hfind as [Hin Hp].
  apply hasEmail_eq in Hp. split; [exact Hp |].
  pose proof (proj1 (Forall_forall _ _) Hnorm a Hin) as Hn. unfold normalized in Hn.
  congruence.
Qed.

(** What resolving the pointer finds when pointer and user agree. *)
Lemma loadAccountForEmail_session (st : AuthState) :
  uniqueAccounts st -> sessionMatchesUser st ->
  match user st with
  | Some u =>
      if (AuthUser.email u =? "")%string
      then getSession st = None /\ loadAccountForEmail (getSession st) st = None
      else exists a, loadAccountForEmail (getSession st) st = Some a /\ projection a = u
  | None => getSession st = None /\ loadAccountForEmail (getSession st) st = None
  end.
Proof.
  intros Hu [_ Hm]. destruct (user st) as [u |].
  - destruct Hm as [(a & Hfind & Hproj) Hses]. rewrite Hses.
    destruct (AuthUser.email u =? "")%string eqn:He; [auto |].
    exists a. split; [| exact Hproj].
    unfold loadAccountForEmail. rewrite He.
    destruct (find_normalized _ _ _ Hu Hfind) as [_ Hlow]. now rewrite Hlow.
  - rewrite Hm. auto.
Qed.

Lemma window_persistSession email st :
  is_Some (window (persistSession email st)) <-> is_Some (window st).
Proof.
  unfold persistSession. destruct (window st) eqn:Hw; simpl; [| rewrite Hw; some_iff].
  destruct email as [e |]; [destruct (e =? "")%string |]; simpl; some_iff.
Qed.

Lemma sessionMatchesUser_signed_in (st : AuthState) (a : StoredAccount.t) :
  is_Some (window st) ->
  List.find (hasEmail (StoredAccount.email a)) (getAccounts st) = Some a ->
  sessionMatchesUser
    (persistSession (Some (StoredAccount.email a)) (setUser (Some (projection a)) st)).
Proof.
  intros Hw Hfind. split.
  - apply window_persistSession. exact Hw.
  - autorewrite with store. split.
    + exists a. simpl. autorewrite with store. auto.
    + now rewrite getSession_persistSession_Some.
Qed.

End SessionInvariant.

Section SessionKept.
Context `{platform : Platform}.

Lemma sessionMatchesUser_same (st st' : AuthState) :
  is_Some (window st') ->
  user st' = user st -> getAccounts st' = getAccounts st -> getSession st' = getSession st ->
  sessionMatchesUser st -> sessionMatchesUser st'.
Proof.
  intros Hw Hu Ha Hs [_ Hm]. split; [exact Hw |]. now rewrite Hu, Ha, Hs.
Qed.

Lemma sessionMatchesUser_signed_out (st : AuthState) :
  is_Some (window st) -> sessionMatchesUser (setUser None (persistSession None st)).
Proof.
  intros Hw. split.
  - simpl. now apply window_persistSession.
  - simpl. now autorewrite with store.
Qed.

Lemma sessionMatchesUser_resolved (st base : AuthState) :
  uniqueAccounts st -> sessionMatchesUser st ->
  is_Some (window base) ->
  user base = user st -> getAccounts base = getAccounts st -> getSession base = getSession st ->
  sessionMatchesUser
    (match loadAccountForEmail (getSession st) st with
     | Some account => setUser (Some (projection account)) base
     | None => setUser None (persistSession None base)
     end).
Proof.
  intros Hu Hm Hw Huser Hacc Hses.
  pose proof (loadAccountForEmail_session st Hu Hm) as Hload.
  destruct (user st) as [u |] eqn:Hust.
  - destruct (AuthUser.email u =? "")%string.
    + destruct Hload as [_ ->]. now apply sessionMatchesUser_signed_out.
    + destruct Hload as (a & -> & Hproj). rewrite Hproj.
      apply (sessionMatchesUser_same st); auto; simpl; congruence.
  - destruct Hload as [_ ->]. now apply sessionMatchesUser_signed_out.
Qed.

Lemma perform_session (op : Operation) (st : AuthState) :
  uniqueAccounts st -> sessionMatchesUser st -> sessionMatchesUser (snd (perform op st)).
Proof.
  intros Hu Hm. pose proof Hm as [Hw _].
  assert (Hfailed : forall err, sessionMatchesUser (failed err st)).
  { intros err. now apply (sessionMatchesUser_same st). }
  destruct op as [| | e pw | now e pw | | random now e | now e otp pw |];
    unfold perform, returning.
  - rewrite initialiseSession_unfold.
    pose proof (sessionMatchesUser_resolved st st Hu Hm Hw eq_refl eq_refl eq_refl) as H.
    destruct (loadAccountForEmail _ _); cbn [fst snd];
      destruct H as [Hw' H]; split; assumption.
  - cbn [fst snd]. now apply (sessionMatchesUser_same st).
  - rewrite signIn_unfold.
    destruct (List.find _ _) as [existing |] eqn:Hfind; [| apply Hfailed].
    destruct (hashString pw) as [hash | err]; [| apply Hfailed].
    destruct (_ =? _)%string; [| apply Hfailed].
    cbn [fst snd]. apply sessionMatchesUser_signed_in; [exact Hw |].
    destruct (find_normalized _ _ _ Hu Hfind) as [-> _]. exact Hfind.
  - rewrite signUp_unfold.
    destruct (List.existsb _ _) eqn:Hdup; [apply Hfailed |].
    destruct (hashString pw) as [hash | err]; [| apply Hfailed].
    cbn [fst snd].
    set (newAccount := {| StoredAccount.email := toLowerCase e;
                          StoredAccount.passwordHash := hash;
                          StoredAccount.createdAt := toISOString now |}).
    apply (sessionMatchesUser_signed_in _ newAccount).
    + now apply window_persistAccounts.
    + rewrite getAccounts_persistAccounts by exact Hw.
      rewrite find_app_last by now apply find_None_existsb.
      now rewrite hasEmail_refl.
  - rewrite signOut_unfold. cbn [fst snd].
    now apply (sessionMatchesUser_signed_out (setError None st)).
  - rewrite requestPasswordReset_unfold.
    destruct (List.find _ _) as [existing |]; [| apply Hfailed].
    destruct (hashString _) as [h | err]; [| apply Hfailed].
    cbn [fst snd]. apply (sessionMatchesUser_same st); autorewrite with store; auto.
    now apply window_persistResetTokens.
  - rewrite verifyPasswordReset_unfold. cbv zeta.
    destruct (List.find _ _) as [token |]; [| apply Hfailed].
    destruct (isExpired now token).
    { cbn [fst snd]. apply (sessionMatchesUser_same st); autorewrite with store; auto.
      simpl. now apply window_persistResetTokens. }
    destruct (hashString otp) as [provided | err]; [| apply Hfailed].
    destruct (provided =? _)%string; [| apply Hfailed].
    destruct (findIndex _ _) as [i |] eqn:Hidx; [| apply Hfailed].
    destruct (hashString pw) as [h | err]; [| apply Hfailed].
    destruct (findIndex_lookup _ _ _ Hidx) as (account & Hacc & Hp & Hfind).
    rewrite list_lookup_alter_eq, Hacc. cbn [fmap option_fmap option_map fst snd].
    apply (sessionMatchesUser_signed_in _ (withPasswordHash h account)).
    + now apply window_persistResetTokens, window_persistAccounts.
    + autorewrite with store. simpl. pose proof Hw as [ls Hls]. rewrite Hls.
      apply hasEmail_eq in Hp. rewrite Hp.
      rewrite (find_alter _ _ _ i) by (auto || reflexivity).
      now rewrite Hfind.
  - rewrite refreshSession_unfold.
    pose proof (sessionMatchesUser_resolved st (setError None st) Hu Hm Hw
                  eq_refl eq_refl eq_refl) as H.
    destruct (loadAccountForEmail _ _); cbn [fst snd]; exact H.
Qed.

Lemma runOperations_session (ops : list Operation) (st : AuthState) :
  uniqueAccounts st -> sessionMatchesUser st ->
  uniqueAccounts (runOperations ops st) /\ sessionMatchesUser (runOperations ops st).
Proof.
  revert st. induction ops as [| op ops IH]; intros st Hu Hm; [auto |].
  apply IH; [now apply perform_unique | now apply perform_session].
Qed.

(** X4. The session survives a reload. In every state reached from the empty
    store without a user, the session pointer is the email of the user and
    the user is the projection of the account stored for it; so after a page
    reload the start-up resolution restores exactly that user. The one
    exception is a user whose email is the empty string: no pointer is kept
    for it and the reload signs it out. *)
Theorem session_survives_reload (ops : list Operation) (st0 : AuthState) :
  window st0 = Some ∅ -> user st0 = None ->
  let st := runOperations ops st0 in
  sessionMatchesUser st
  /\ exists st',
       initialiseSession (reload st) = (Resolved tt, st')
       /\ loading st' = false
       /\ user st'
          = match user st with
            | Some u => if (AuthUser.email u =? "")%string then None else Some u
            | None => None
            end
       /\ getSession st' = getSession st.
Proof.
  intros Hw Huser st.
  assert (H0 : sessionMatchesUser st0).
  { split; [rewrite Hw; eauto |]. rewrite Huser.
    unfold getSession. now rewrite Hw, lookup_empty. }
  destruct (runOperations_session ops st0
              (empty_unique st0 (getAccounts_empty st0 Hw)) H0) as [Hu Hm].
  fold st in Hu, Hm. split; [exact Hm |].
  pose proof (loadAccountForEmail_session st Hu Hm) as Hload.
  rewrite initialiseSession_unfold.
  change (getSession (reload st)) with (getSession st).
  change (loadAccountForEmail (getSession st) (reload st))
    with (loadAccountForEmail (getSession st) st).
  destruct (user st) as [u |].
  - destruct (AuthUser.email u =? "")%string.
    + destruct Hload as [Hnone ->]. eexists. split; [reflexivity |].
      autorewrite with store. rewrite Hnone. auto.
    + destruct Hload as (a & -> & Hproj). eexists. split; [reflexivity |].
      autorewrite with store. rewrite Hproj. auto.
  - destruct Hload as [Hnone ->]. eexists. split; [reflexivity |].
    autorewrite with store. rewrite Hnone. auto.
Qed.

End SessionKept.

(** ** How the operations compose *)

Section Composition.
Context `{platform : Platform}.

Lemma getAccounts_verified n h i account st :
  is_Some (window st) ->
  getAccounts (verified n h i account st) = alter (withPasswordHash h) i (getAccounts st).
Proof.
  intros [ls Hw]. unfold verified. autorewrite with store. simpl. now rewrite Hw.
Qed.

(** X5. A verified reset replaces the password for signing in: afterwards
    [signIn] with the new password resolves, and [signIn] with any password
    of a different digest, the old one included, is rejected with
    [InvalidCredential]. *)
Theorem password_replaced now email otp newPassword st token account newHash :
  List.find (forEmail (toLowerCase email)) (getResetTokens st) = Some token ->
  isExpired now token = false ->
  hashString otp = Resolved (PasswordResetToken.otpHash token) ->
  List.find (hasEmail (toLowerCase email)) (getAccounts st) = Some account ->
  hashString newPassword = Resolved newHash ->
  exists st',
    verifyPasswordReset now email otp newPassword st = (Resolved tt, st')
    /\ (exists st2, signIn email newPassword st' = (Resolved tt, st2)
                    /\ isAuthenticated st2 = true)
    /\ forall other otherHash,
         hashString other = Resolved otherHash -> otherHash <> newHash ->
         exists st2, signIn email other st' = (Rejected InvalidCredential, st2).
Proof.
  intros Htok Hlive Hotp Hfind Hnew.
  destruct (find_findIndex _ _ _ Hfind) as (i & Hidx & Hi).
  destruct (verifyPasswordReset_resolved _ _ _ _ _ _ _ _ Htok Hlive Hotp Hidx Hnew)
    as (account' & Hacc & Hemail & Hrun).
  assert (account' = account) as -> by congruence.
  pose proof (find_token_window _ _ _ Htok) as Hw.
  eexists. split; [exact Hrun |].
  assert (Hfound : List.find (hasEmail (toLowerCase email))
                     (getAccounts (verified (toLowerCase email) newHash i account st))
                   = Some (withPasswordHash newHash account)).
  { rewrite getAccounts_verified by exact Hw.
    rewrite (find_alter _ _ _ i) by (auto || reflexivity). now rewrite Hfind. }
  split.
  - rewrite signIn_unfold, Hfound, Hnew. simpl StoredAccount.passwordHash.
    rewrite String.eqb_refl. eexists. split; [reflexivity |].
    unfold isAuthenticated. now autorewrite with store.
  - intros other otherHash Hother Hne.
    rewrite signIn_unfold, Hfound, Hother. simpl StoredAccount.passwordHash.
    destruct (String.eqb_spec newHash otherHash) as [Heq | _]; [congruence |].
    eexists. reflexivity.
Qed.

Lemma perform_no_window (op : Operation) (st : AuthState) :
  window st = None -> window (snd (perform op st)) = None.
Proof.
  intros Hw.
  assert (Ha : getAccounts st = []) by now apply getAccounts_no_window.
  assert (Ht : getResetTokens st = []) by now apply getResetTokens_no_window.
  destruct op as [| | e pw | now e pw | | random now e | now e otp pw |];
    unfold perform, returning;
    rewrite ?initialiseSession_unfold, ?signIn_unfold, ?signUp_unfold, ?signOut_unfold,
      ?requestPasswordReset_unfold, ?verifyPasswordReset_unfold, ?refreshSession_unfold;
    rewrite ?Ha, ?Ht; cbv zeta; simpl List.find; simpl List.existsb;
    unfold modify, clearError, failed;
    repeat (cbn [fst snd]; break_match); cbn [fst snd];
    unfold persistSession, persistAccounts, persistResetTokens; simpl; rewrite ?Hw;
    simpl; rewrite ?Hw; auto.
Qed.

(** X6. Where [window] is undefined nothing is remembered: every operation
    leaves it undefined, [signUp] still resolves and sets the user, but no
    account and no session pointer exist afterwards, and the same
    credentials are then rejected by [signIn] with the account-not-found
    error. *)
Theorem nothing_remembered_without_window now e pw st h :
  window st = None ->
  hashString pw = Resolved h ->
  (forall ops, window (runOperations ops st) = None)
  /\ exists st1 st2,
       signUp now e pw st = (Resolved tt, st1)
       /\ isAuthenticated st1 = true
       /\ getAccounts st1 = []
       /\ getSession st1 = None
       /\ signIn e pw st1 = (Rejected AccountNotFound_signIn, st2)
       /\ isAuthenticated st2 = true.
Proof.
  intros Hw Hh. split.
  - intros ops. revert st Hw. clear Hh. induction ops as [| op ops IH]; intros st Hw; [exact Hw |].
    apply IH. now apply perform_no_window.
  - rewrite signUp_unfold, (getAccounts_no_window st Hw), Hh. simpl.
    eexists. eexists. split; [reflexivity |].
    assert (Hw1 : forall u a s, window (persistSession s (setUser u
                     (persistAccounts a (setError None st)))) = None).
    { intros u a s. unfold persistSession, persistAccounts. simpl. rewrite Hw. simpl.
      now rewrite Hw. }
    split; [unfold isAuthenticated; now autorewrite with store |].
    split; [now apply getAccounts_no_window |].
    split; [unfold getSession; now rewrite Hw1 |].
    rewrite signIn_unfold, getAccounts_no_window by apply Hw1. simpl.
    split; [reflexivity |].
    unfold isAuthenticated, failed. simpl. now autorewrite with store.
Qed.

(** X8. A reset code is accepted up to and including the instant of expiry,
    and at any time when the stored expiry does not read as a date (the
    comparison with [NaN] is false). *)
Theorem token_accepted_until_expiry now email otp newPassword st token account newHash :
  List.find (forEmail (toLowerCase email)) (getResetTokens st) = Some token ->
  hashString otp = Resolved (PasswordResetToken.otpHash token) ->
  List.find (hasEmail (toLowerCase email)) (getAccounts st) = Some account ->
  hashString newPassword = Resolved newHash ->
  (forall expiry, Date_getTime (PasswordResetToken.expiresAt token) = Some expiry ->
                  now <= expiry) ->
  exists st',
    verifyPasswordReset now email otp newPassword st = (Resolved tt, st')
    /\ isAuthenticated st' = true.
Proof.
  intros Htok Hotp Hfind Hnew Hlive.
  assert (Hexp : isExpired now token = false).
  { unfold isExpired. destruct (Date_getTime _) as [expiry |]; [| reflexivity].
    apply Z.ltb_ge. now apply Hlive. }
  destruct (find_findIndex _ _ _ Hfind) as (i & Hidx & Hi).
  destruct (verifyPasswordReset_resolved _ _ _ _ _ _ _ _ Htok Hexp Hotp Hidx Hnew)
    as (account' & Hacc & Hemail & Hrun).
  eexists. split; [exact Hrun |].
  unfold isAuthenticated, verified. now autorewrite with store.
Qed.

(** X10. [refreshSession] tells whether a user is authenticated afterwards,
    and repeating it changes nothing: the second call returns the same
    answer and leaves the state it found. *)
Theorem refreshSession_idempotent (st : AuthState) :
  exists b st',
    refreshSession st = (Resolved b, st')
    /\ isAuthenticated st' = b
    /\ refreshSession st' = (Resolved b, st').
Proof.
  rewrite refreshSession_unfold.
  destruct (loadAccountForEmail (getSession st) st) as [account |] eqn:Hload.
  - eexists. eexists. split; [reflexivity |]. split; [reflexivity |].
    rewrite refreshSession_unfold.
    change (getSession (setUser ?u (setError None st))) with (getSession st).
    change (loadAccountForEmail (getSession st) (setUser ?u (setError None st)))
      with (loadAccountForEmail (getSession st) st).
    rewrite Hload. reflexivity.
  - eexists. eexists. split; [reflexivity |].
    split; [unfold isAuthenticated; now autorewrite with store |].
    rewrite refreshSession_unfold. autorewrite with store.
    cbn [loadAccountForEmail]. f_equal.
    unfold persistSession, setUser, setError, setWindow. simpl.
    destruct (window st) as [ls |]; simpl; [| reflexivity].
    now rewrite delete_delete_eq.
Qed.

Lemma find_issued (n : string) (l : list PasswordResetToken.t) (t : PasswordResetToken.t) :
  PasswordResetToken.email t = n ->
  List.find (forEmail n) (List.filter (otherEmail n) l ++ [t]) = Some t.
Proof.
  intros Hn. rewrite find_app_last by apply find_filter_negb.
  now replace (forEmail n t) with true by (symmetry; now apply forEmail_eq).
Qed.

(** X11. A new request supersedes the earlier one: after two requests for
    the same email exactly one token is stored for it, that of the second
    code, and the first code, unless it has the same digest, is then rejected
    with [InvalidCode]. *)
Theorem second_request_replaces_first r1 r2 now1 now2 email st existing :
  Random_valid r1 -> Random_valid r2 ->
  List.find (hasEmail (toLowerCase email)) (getAccounts st) = Some existing ->
  exists otp1 otp2 st1 st2 issued,
    requestPasswordReset r1 now1 email st = (Resolved otp1, st1)
    /\ requestPasswordReset r2 now2 email st1 = (Resolved otp2, st2)
    /\ List.filter (forEmail (toLowerCase email)) (getResetTokens st2) = [issued]
    /\ hashString otp2 = Resolved (PasswordResetToken.otpHash issued)
    /\ PasswordResetToken.expiresAt issued = toISOString (now2 + 10 * 60 * 1000)
    /\ forall h1 now newPassword,
         hashString otp1 = Resolved h1 ->
         h1 <> PasswordResetToken.otpHash issued ->
         isExpired now issued = false ->
         exists st3, verifyPasswordReset now email otp1 newPassword st2
                     = (Rejected InvalidCode, st3).
Proof.
  intros Hr1 Hr2 Hfind.
  destruct (generateOtp_digits r1 Hr1) as (_ & _ & Hascii1).
  destruct (generateOtp_digits r2 Hr2) as (_ & _ & Hascii2).
  destruct (hashString_ascii _ Hascii1) as [h1 Hh1].
  destruct (hashString_ascii _ Hascii2) as [h2 Hh2].
  assert (Hw : is_Some (window st)).
  { apply getAccounts_window. intros Hnil. rewrite Hnil in Hfind. discriminate. }
  destruct Hw as [ls Hw].
  set (n := toLowerCase email) in *.
  set (t1 := {| PasswordResetToken.email := n; PasswordResetToken.otpHash := h1;
                PasswordResetToken.expiresAt := toISOString (now1 + 600000) |}).
  set (t2 := {| PasswordResetToken.email := n; PasswordResetToken.otpHash := h2;
                PasswordResetToken.expiresAt := toISOString (now2 + 600000) |}).
  set (T1 := (List.filter (otherEmail n) (getResetTokens st) ++ [t1])%list).
  set (st1 := persistResetTokens T1 (setError None st)).
  set (T2 := (List.filter (otherEmail n) T1 ++ [t2])%list).
  set (st2 := persistResetTokens T2 (setError None st1)).
  assert (Hacc1 : getAccounts st1 = getAccounts st) by (unfold st1; now autorewrite with store).
  assert (Htok1 : getResetTokens st1 = T1).
  { unfold st1. autorewrite with store. simpl. now rewrite Hw. }
  assert (Hw1 : is_Some (window st1)).
  { unfold st1. apply window_persistResetTokens. simpl. rewrite Hw. eauto. }
  assert (Htok2 : getResetTokens st2 = T2).
  { unfold st2. autorewrite with store. simpl. now destruct Hw1 as [ls1 ->]. }
  exists (generateOtp r1), (generateOtp r2), st1, st2, t2.
  split; [rewrite requestPasswordReset_unfold; fold n; now rewrite Hfind, Hh1 |].
  split; [rewrite requestPasswordReset_unfold; fold n; now rewrite Hacc1, Hfind, Hh2, Htok1 |].
  split; [rewrite Htok2; now apply filter_forEmail_issued |].
  split; [exact Hh2 |]. split; [reflexivity |].
  intros h1' now newPassword Hh1' Hne Hlive.
  rewrite verifyPasswordReset_unfold. cbv zeta. fold n.
  rewrite Htok2. unfold T2. rewrite find_issued by reflexivity.
  rewrite Hlive, Hh1'.
  destruct (String.eqb_spec h1' (PasswordResetToken.otpHash t2)) as [Heq | _];
    [contradiction |].
  eexists. reflexivity.
Qed.

End Composition.

(** ** The hex rendering of a digest *)

Section Hex.
Context `{platform : Platform}.

Lemma hexByte_shape (b : Byte.byte) :
  exists c1 c2,
    hexByte b = String c1 (String c2 "")
    /\ isLowerHex c1 = true /\ isLowerHex c2 = true
    /\ forall rest, unhex (String c1 (String c2 rest))
                    = match unhex rest with Some bytes => Some (b :: bytes) | None => None end.
Proof.
  destruct b; eexists; eexists; (split; [vm_compute; reflexivity |]);
    (split; [reflexivity |]); (split; [reflexivity |]);
    intros rest; cbn [unhex]; destruct (unhex rest); reflexivity.
Qed.

Lemma concat_empty_cons (x : string) (l : list string) :
  String.concat "" (x :: l) = x ++ String.concat "" l.
Proof.
  destruct l as [| y l]; simpl; [| reflexivity].
  induction x as [| c x IH]; simpl; congruence.
Qed.

Lemma hex_digest (bytes : list Byte.byte) :
  let h := String.concat "" (List.map hexByte bytes) in
  String.length h = (2 * length bytes)%nat
  /\ forallb isLowerHex (list_ascii_of_string h) = true
  /\ unhex h = Some bytes.
Proof.
  induction bytes as [| b bytes IH]; [repeat split |].
  cbv zeta in *. simpl List.map. rewrite concat_empty_cons.
  destruct (hexByte_shape b) as (c1 & c2 & -> & H1 & H2 & Hun).
  destruct IH as (IHlen & IHhex & IHun). simpl String.append.
  split; [simpl; lia |]. split.
  - simpl. now rewrite H1, H2, IHhex.
  - now rewrite Hun, IHun.
Qed.

(** X9. Where [crypto.subtle] is used, [hashString] returns two lower-case
    hex digits per byte of the digest, from which the bytes can be read back:
    two strings get the same stored digest exactly when SHA-256 gives their
    encodings the same bytes. *)
Theorem hashString_hex digest encode :
  crypto_subtle_digest = Some digest ->
  textEncoder_encode = Some encode ->
  (forall s, exists h,
      hashString s = Resolved h
      /\ String.length h = (2 * length (digest (encode s)))%nat
      /\ forallb isLowerHex (list_ascii_of_string h) = true
      /\ unhex h = Some (digest (encode s)))
  /\ forall s1 s2, hashString s1 = hashString s2 <-> digest (encode s1) = digest (encode s2).
Proof.
  intros Hd He.
  assert (Hhash : forall s, hashString s
                            = Resolved (String.concat "" (List.map hexByte (digest (encode s))))).
  { intros s. unfold hashString. now rewrite Hd, He. }
  split.
  - intros s. eexists. split; [apply Hhash |]. apply hex_digest.
  - intros s1 s2. rewrite !Hhash. split.
    + intros [= Heq].
      destruct (hex_digest (digest (encode s1))) as (_ & _ & H1).
      destruct (hex_digest (digest (encode s2))) as (_ & _ & H2).
      cbv zeta in H1, H2. rewrite Heq in H1. congruence.
    + now intros ->.
Qed.

End Hex.

(** ** The key of the chat sessions *)

Section ChatKey.

(** X13. The chat sessions are kept apart from the accounts: their key is
    none of the three keys of the context, whoever the user is; two users
    share a key exactly when they have the same email, and a user shares the
    key of the guest exactly when the email is the word guest. *)
Theorem chat_sessions_kept_apart (u1 u2 : AuthUser.t) :
  (forall user, authKey (storageKey user) = false)
  /\ (storageKey (Some u1) = storageKey (Some u2) <-> AuthUser.email u1 = AuthUser.email u2)
  /\ (storageKey (Some u1) = storageKey None <-> AuthUser.email u1 = "guest").
Proof.
  split; [intros [u |]; reflexivity |].
  split; simpl; split; intros H; try (injection H; auto); now rewrite H.
Qed.

End ChatKey.

Section Form.
Context `{platform : Platform}.

Lemma signIn_accounts email password st :
  getAccounts (snd (signIn email password st)) = getAccounts st.
Proof.
  rewrite signIn_unfold.
  destruct (List.find _ _);
    [destruct (hashString password); [destruct (_ =? _)%string |] |];
    simpl; now autorewrite with store.
Qed.

(** X16. The form stores confirmed passwords only: when submitting the
    sign-in or sign-up form, or the reset form, changes the stored accounts,
    the password typed and its confirmation were the same text. *)
Theorem form_stores_confirmed_passwords (now : Z) (page : Page) :
  getAccounts (context (snd (handleAuthSubmit now page))) <> getAccounts (context page)
  \/ getAccounts (context (snd (handleResetSubmit now page))) <> getAccounts (context page) ->
  AuthForm.password (form page) = AuthForm.confirmPassword (form page).
Proof.
  intros Hchanged.
  destruct (AuthForm.password (form page) =? AuthForm.confirmPassword (form page))%string
    eqn:Heqb; [now apply String.eqb_eq | exfalso].
  destruct Hchanged as [Hchanged | Hchanged]; apply Hchanged; clear Hchanged.
  - unfold handleAuthSubmit. rewrite Heqb.
    destruct (authMode page) eqn:Hmode; simpl; rewrite ?Hmode; simpl; try reflexivity.
    destruct (signIn _ _ _) as [outcome st] eqn:Hin. simpl.
    change st with (snd (outcome, st)). rewrite <- Hin. apply signIn_accounts.
  - unfold handleResetSubmit. rewrite Heqb.
    destruct (AuthForm.resetEmail (form page)) as [resetEmail |]; [| reflexivity].
    destruct (resetEmail =? "")%string; reflexivity.
Qed.

Lemma handleForgotSubmit_resolved random now page otp st :
  requestPasswordReset random now (AuthForm.email (form page)) (context page)
  = (Resolved otp, st) ->
  exists page1,
    handleForgotSubmit random now page = (Resolved tt, page1)
    /\ authMode page1 = reset
    /\ context page1 = st
    /\ AuthForm.resetEmail (form page1) = Some (toLowerCase (AuthForm.email (form page)))
    /\ AuthForm.generatedOtp (form page1) = Some otp
    /\ AuthForm.loading (form page1) = false.
Proof.
  intros Hreq. unfold handleForgotSubmit.
  change (context (setFormLoading true page)) with (context page).
  rewrite Hreq. eexists. split; [reflexivity |]. repeat split.
Qed.

(** X14. The account whose email is the empty string cannot be reset through
    the form: the request succeeds and shows a code, but the reset email the
    form keeps is then the empty string, which the reset handler takes for
    no request at all. It raises the alert, goes back to the request form and
    never calls the context. *)
Theorem empty_email_reset_loops random now now2 page page2 existing :
  Random_valid random ->
  toLowerCase (AuthForm.email (form page)) = "" ->
  List.find (hasEmail "") (getAccounts (context page)) = Some existing ->
  exists otp page1,
    handleForgotSubmit random now page = (Resolved tt, page1)
    /\ AuthForm.generatedOtp (form page1) = Some otp
    /\ authMode page1 = reset
    /\ (AuthForm.resetEmail (form page2) = AuthForm.resetEmail (form page1) ->
        handleResetSubmit now2 page2
        = (Resolved tt,
           onModeChange forgot
             (alert "No reset request found. Please request a new code." page2))).
Proof.
  intros Hvalid Hempty Hfind.
  destruct (generateOtp_digits random Hvalid) as (_ & _ & Hascii).
  destruct (hashString_ascii _ Hascii) as [otpHash Hhash].
  destruct (handleForgotSubmit_resolved random now page (generateOtp random)
              (persistResetTokens
                 (List.filter (otherEmail "") (getResetTokens (context page))
                  ++ [ {| PasswordResetToken.email := "";
                          PasswordResetToken.otpHash := otpHash;
                          PasswordResetToken.expiresAt := toISOString (now + 600000) |} ])%list
                 (setError None (context page))))
    as (page1 & Hrun & Hmode & _ & Hre & Hotp & _).
  { rewrite requestPasswordReset_unfold, Hempty, Hfind, Hhash. reflexivity. }
  exists (generateOtp random), page1.
  split; [exact Hrun |]. split; [exact Hotp |]. split; [exact Hmode |].
  intros Hsame. unfold handleResetSubmit. rewrite Hsame, Hre, Hempty. reflexivity.
Qed.

(** X15. The code the form shows works. After a request submitted for a
    non-empty email with an account, the form is in reset mode and shows the
    code; submitting that code with a new password typed twice, no later
    than the expiry the token carries, resolves, authenticates the account
    and leaves the form idle, and the new password then signs in. *)
Theorem displayed_code_resets_password random now now2 page page2 existing newHash :
  Random_valid random ->
  toLowerCase (AuthForm.email (form page)) <> "" ->
  List.find (hasEmail (toLowerCase (AuthForm.email (form page))))
            (getAccounts (context page)) = Some existing ->
  (forall expiry, Date_getTime (toISOString (now + 10 * 60 * 1000)) = Some expiry ->
                  now2 <= expiry) ->
  AuthForm.password (form page2) = AuthForm.confirmPassword (form page2) ->
  hashString (AuthForm.password (form page2)) = Resolved newHash ->
  exists otp page1,
    handleForgotSubmit random now page = (Resolved tt, page1)
    /\ authMode page1 = reset
    /\ AuthForm.generatedOtp (form page1) = Some otp
    /\ (AuthForm.resetEmail (form page2) = AuthForm.resetEmail (form page1) ->
        AuthForm.otpInput (form page2) = otp ->
        context page2 = context page1 ->
        exists page3 st4,
          handleResetSubmit now2 page2 = (Resolved tt, page3)
          /\ AuthForm.loading (form page3) = false
          /\ user (context page3) = Some (projection existing)
          /\ signIn (AuthForm.email (form page)) (AuthForm.password (form page2))
                    (context page3) = (Resolved tt, st4)).
Proof.
  intros Hvalid Hnonempty Hfind Hlive Hmatch Hnew.
  set (n := toLowerCase (AuthForm.email (form page))) in *.
  destruct (generateOtp_digits random Hvalid) as (_ & _ & Hascii).
  destruct (hashString_ascii _ Hascii) as [otpHash Hhash].
  set (issued := {| PasswordResetToken.email := n;
                    PasswordResetToken.otpHash := otpHash;
                    PasswordResetToken.expiresAt := toISOString (now + 600000) |}).
  set (tokens := (List.filter (otherEmail n) (getResetTokens (context page)) ++ [issued])%list).
  set (st1 := persistResetTokens tokens (setError None (context page))).
  destruct (handleForgotSubmit_resolved random now page (generateOtp random) st1)
    as (page1 & Hrun & Hmode & Hctx & Hre & Hotp & _).
  { rewrite requestPasswordReset_unfold. fold n. now rewrite Hfind, Hhash. }
  exists (generateOtp random), page1.
  split; [exact Hrun |]. split; [exact Hmode |]. split; [exact Hotp |].
  intros Hsame Hinput Hctx2.
  assert (Hw : is_Some (window (context page))).
  { apply getAccounts_window. intros Hnil. rewrite Hnil in Hfind. discriminate. }
  assert (Htok : getResetTokens st1 = tokens).
  { unfold st1. autorewrite with store. simpl. now destruct Hw as [ls ->]. }
  assert (Hacc : getAccounts st1 = getAccounts (context page))
    by (unfold st1; now autorewrite with store).
  assert (Hidem : toLowerCase n = n) by apply toLowerCase_idem.
  assert (Hftok : List.find (forEmail (toLowerCase n)) (getResetTokens st1) = Some issued).
  { rewrite Hidem, Htok. now apply find_issued. }
  assert (Hexp : isExpired now2 issued = false).
  { unfold isExpired. simpl. change (now + 600000) with (now + 10 * 60 * 1000).
    destruct (Date_getTime _) as [expiry |] eqn:Hd; [| reflexivity].
    apply Z.ltb_ge. now apply Hlive. }
  assert (Hfacc : List.find (hasEmail (toLowerCase n)) (getAccounts st1) = Some existing)
    by now rewrite Hidem, Hacc.
  destruct (find_findIndex _ _ _ Hfacc) as (i & Hidx & Hi).
  destruct (verifyPasswordReset_resolved now2 n (generateOtp random)
              (AuthForm.password (form page2)) st1 issued i newHash
              Hftok Hexp Hhash Hidx Hnew)
    as (account & Hlook & Hemail & Hverify).
  assert (account = existing) as -> by (rewrite Hi in Hlook; now injection Hlook).
  assert (Hre2 : AuthForm.resetEmail (form page2) = Some n)
    by (rewrite Hsame, Hre; reflexivity).
  apply String.eqb_neq in Hnonempty.
  assert (Hsubmit : handleResetSubmit now2 page2
                    = (Resolved tt,
                       setFormLoading false
                         (setContext (verified (toLowerCase n) newHash i existing st1)
                            (setFormLoading true page2)))).
  { apply String.eqb_eq in Hmatch.
    unfold handleResetSubmit. rewrite Hre2, Hnonempty, Hmatch. simpl negb.
    cbv iota. change (context (setFormLoading true page2)) with (context page2).
    rewrite Hctx2, Hctx, Hinput, Hverify. reflexivity. }
  eexists. eexists. split; [exact Hsubmit |]. split; [reflexivity |].
  split; [unfold verified; simpl; now autorewrite with store |].
  simpl context.
  rewrite signIn_unfold. fold n.
  rewrite getAccounts_verified by (unfold st1; apply window_persistResetTokens; exact Hw).
  rewrite Hidem in Hidx.
  rewrite (find_alter _ _ _ i) by (auto || reflexivity).
  rewrite Hacc in *. rewrite Hfind. simpl. rewrite Hnew, String.eqb_refl. reflexivity.
Qed.

End Form.

(** ** The further statements on the concrete browser *)

Section FurtherInstances.
Import SampleBrowser SampleForm.

Lemma error_cell_reflects_outcome_witness :
  error (snd (perform (SignIn "a@b.com" "p") fresh))
  = Some "Account not found. Please sign up first.".
Proof.
  rewrite (error_cell_reflects_outcome (SignIn "a@b.com" "p") fresh eq_refl).
  vm_compute. reflexivity.
Defined.

Lemma only_auth_keys_written_witness :
  rawValue "clarai.chatSessions.v1.guest"
    (runOperations [SignUp 0 "A@b.com" "p"; SignOut; RequestPasswordReset half 0 "a@B.com"]
       fresh)
  = rawValue "clarai.chatSessions.v1.guest" fresh.
Proof.
  apply (only_auth_keys_written
           [SignUp 0 "A@b.com" "p"; SignOut; RequestPasswordReset half 0 "a@B.com"]
           fresh "clarai.chatSessions.v1.guest").
  vm_compute. reflexivity.
Defined.

Lemma rejected_operation_changes_nothing_witness :
  user (snd (perform (SignIn "A@b.com" "wrong") registered)) = user registered
  /\ getAccounts (snd (perform (SignIn "A@b.com" "wrong") registered))
     = getAccounts registered.
Proof.
  destruct (rejected_operation_changes_nothing (SignIn "A@b.com" "wrong") registered
              InvalidCredential) as (Huser & Haccounts & _).
  - vm_compute. reflexivity.
  - split; assumption.
Defined.

Lemma accounts_never_deleted_witness :
  getAccounts (runOperations [SignOut; SignUp 5 "c@d.com" "q"; SignIn "a@b.com" "p"]
                 registered) !! 0%nat
  = Some {| StoredAccount.email := "a@b.com"; StoredAccount.passwordHash := "cA==";
            StoredAccount.createdAt := "1970-01-01T00:00:00.000Z" |}.
Proof.
  destruct (accounts_never_deleted
              [SignOut; SignUp 5 "c@d.com" "q"; SignIn "a@b.com" "p"] registered 0%nat
              {| StoredAccount.email := "a@b.com"; StoredAccount.passwordHash := "cA==";
                 StoredAccount.createdAt := "1970-01-01T00:00:00.000Z" |})
    as [_ Hsame].
  - vm_compute. reflexivity.
  - apply Hsame. reflexivity.
Defined.

Lemma tokens_belong_to_accounts_witness :
  window fresh = Some ∅ /\ tokensOwned requested.
Proof.
  split; [reflexivity |].
  destruct (tokens_belong_to_accounts
              [SignUp 0 "A@b.com" "p"; SignOut; RequestPasswordReset half 0 "a@B.com"]
              fresh eq_refl) as [Howned _].
  exact Howned.
Defined.

Lemma session_survives_reload_witness :
  exists st', initialiseSession (reload registered) = (Resolved tt, st')
              /\ user st' = user registered.
Proof.
  destruct (session_survives_reload [SignUp 0 "A@b.com" "p"] fresh eq_refl eq_refl)
    as (_ & st' & Hrun & _ & Huser & _).
  exists st'. split; [exact Hrun |]. rewrite Huser. vm_compute. reflexivity.
Defined.

Lemma password_replaced_witness :
  exists st', verifyPasswordReset 1 "A@B.com" "550000" "new" requested = (Resolved tt, st')
              /\ (exists st2, signIn "A@B.com" "new" st' = (Resolved tt, st2))
              /\ exists st2, signIn "A@B.com" "p" st' = (Rejected InvalidCredential, st2).
Proof.
  destruct (password_replaced 1 "A@B.com" "550000" "new" requested
              {| PasswordResetToken.email := "a@b.com";
                 PasswordResetToken.otpHash := "NTUwMDAw";
                 PasswordResetToken.expiresAt := "1970-01-01T00:10:00.000Z" |}
              {| StoredAccount.email := "a@b.com"; StoredAccount.passwordHash := "cA==";
                 StoredAccount.createdAt := "1970-01-01T00:00:00.000Z" |}
              "bmV3")
    as (st' & Hrun & (st2 & Hin & _) & Hother).
  - vm_compute. reflexivity.
  - vm_compute. reflexivity.
  - vm_compute. reflexivity.
  - vm_compute. reflexivity.
  - vm_compute. reflexivity.
  - exists st'. split; [exact Hrun |]. split; [eauto |].
    apply (Hother "p" "cA=="); [vm_compute; reflexivity | discriminate].
Defined.

Lemma nothing_remembered_without_window_witness :
  exists st1 st2, signUp 0 "a@b.com" "p" offline = (Resolved tt, st1)
                  /\ getAccounts st1 = []
                  /\ signIn "a@b.com" "p" st1 = (Rejected AccountNotFound_signIn, st2).
Proof.
  destruct (nothing_remembered_without_window 0 "a@b.com" "p" offline "cA==")
    as (_ & st1 & st2 & Hup & _ & Haccounts & _ & Hin & _).
  - reflexivity.
  - vm_compute. reflexivity.
  - exists st1, st2. auto.
Defined.

Lemma token_accepted_until_expiry_witness :
  exists st', verifyPasswordReset 600000 "A@B.com" "550000" "new" requested
              = (Resolved tt, st')
              /\ isAuthenticated st' = true.
Proof.
  apply (token_accepted_until_expiry 600000 "A@B.com" "550000" "new" requested
           {| PasswordResetToken.email := "a@b.com";
              PasswordResetToken.otpHash := "NTUwMDAw";
              PasswordResetToken.expiresAt := "1970-01-01T00:10:00.000Z" |}
           {| StoredAccount.email := "a@b.com"; StoredAccount.passwordHash := "cA==";
              StoredAccount.createdAt := "1970-01-01T00:00:00.000Z" |}
           "bmV3").
  - vm_compute. reflexivity.
  - vm_compute. reflexivity.
  - vm_compute. reflexivity.
  - vm_compute. reflexivity.
  - intros expiry Hexpiry. vm_compute in Hexpiry. injection Hexpiry as <-. lia.
Defined.

Lemma second_request_replaces_first_witness :
  exists otp1 otp2 st1 st2 issued,
    requestPasswordReset half 0 "a@B.com" registered = (Resolved otp1, st1)
    /\ requestPasswordReset quarter 7 "a@B.com" st1 = (Resolved otp2, st2)
    /\ List.filter (forEmail "a@b.com") (getResetTokens st2) = [issued]
    /\ hashString otp2 = Resolved (PasswordResetToken.otpHash issued).
Proof.
  destruct (second_request_replaces_first half quarter 0 7 "a@B.com" registered
              {| StoredAccount.email := "a@b.com"; StoredAccount.passwordHash := "cA==";
                 StoredAccount.createdAt := "1970-01-01T00:00:00.000Z" |})
    as (otp1 & otp2 & st1 & st2 & issued & Hrun1 & Hrun2 & Hone & Hhash & _).
  - unfold Random_valid, half. simpl. lia.
  - unfold Random_valid, quarter. simpl. lia.
  - vm_compute. reflexivity.
  - exists otp1, otp2, st1, st2, issued. auto.
Defined.

Lemma hashString_hex_witness :
  exists h, hashString (platform := secure) "p" = Resolved h
            /\ unhex h = Some (checksum (list_byte_of_string "p")).
Proof.
  destruct (hashString_hex (platform := secure) checksum list_byte_of_string
              eq_refl eq_refl) as [Hshape _].
  destruct (Hshape "p") as (h & Hrun & _ & _ & Hback).
  exists h. auto.
Defined.

Lemma form_stores_confirmed_passwords_witness :
  AuthForm.password (form signupPage) = AuthForm.confirmPassword (form signupPage).
Proof.
  apply (form_stores_confirmed_passwords 0 signupPage).
  left. vm_compute. discriminate.
Defined.

Lemma empty_email_reset_loops_witness :
  exists otp page1,
    handleForgotSubmit half 0 forgotEmptyPage = (Resolved tt, page1)
    /\ AuthForm.generatedOtp (form page1) = Some otp
    /\ handleResetSubmit 1 resetEmptyPage
       = (Resolved tt,
          onModeChange forgot
            (alert "No reset request found. Please request a new code." resetEmptyPage)).
Proof.
  destruct (empty_email_reset_loops half 0 1 forgotEmptyPage resetEmptyPage
              {| StoredAccount.email := ""; StoredAccount.passwordHash := "cHc=";
                 StoredAccount.createdAt := "1970-01-01T00:00:00.000Z" |})
    as (otp & page1 & Hrun & Hotp & _ & Hloop).
  - unfold Random_valid, half. simpl. lia.
  - reflexivity.
  - vm_compute. reflexivity.
  - exists otp, page1. split; [exact Hrun |]. split; [exact Hotp |].
    apply Hloop. vm_compute in Hrun. injection Hrun as <-. reflexivity.
Defined.

Lemma displayed_code_resets_password_witness :
  exists page1 page3,
    handleForgotSubmit half 0 forgotPage = (Resolved tt, page1)
    /\ AuthForm.generatedOtp (form page1) = Some "550000"
    /\ handleResetSubmit 1 resetPage = (Resolved tt, page3)
    /\ isAuthenticated (context page3) = true.
Proof.
  destruct (displayed_code_resets_password half 0 1 forgotPage resetPage
              {| StoredAccount.email := "a@b.com"; StoredAccount.passwordHash := "cA==";
                 StoredAccount.createdAt := "1970-01-01T00:00:00.000Z" |}
              "bmV3")
    as (otp & page1 & Hrun & _ & Hotp & Hreset).
  - unfold Random_valid, half. simpl. lia.
  - vm_compute. discriminate.
  - vm_compute. reflexivity.
  - intros expiry Hexpiry. vm_compute in Hexpiry. injection Hexpiry as <-. lia.
  - reflexivity.
  - vm_compute. reflexivity.
  - pose proof Hrun as Hpage. vm_compute in Hpage. injection Hpage as Hpage.
    assert (Hcode : otp = "550000") by (rewrite <- Hpage in Hotp; now injection Hotp).
    destruct Hreset as (page3 & st4 & Hsubmit & _ & Huser & _).
    + rewrite <- Hpage. reflexivity.
    + rewrite Hcode. reflexivity.
    + rewrite <- Hpage. vm_compute. reflexivity.
    + exists page1, page3. split; [exact Hrun |]. split; [now rewrite Hotp, Hcode |].
      split; [exact Hsubmit |]. unfold isAuthenticated. now rewrite Huser.
Defined.

End FurtherInstances.
